(** * Lightswind widgets: Drawer, Sheet, Select and the 3D image ring

    A shallow embedding of the React components of the repository and the
    properties of their open/close logic.

    What is modelled:
    - a React context as [option] of its value ([None]: no provider above);
    - a component as a function from the context, its children and its
      remaining props to a [Result]: the rendered tree, or a thrown error;
    - [children] as the list of child nodes; a component element in the
      output of another component stands as what that component renders
      under the same context;
    - props objects as finite maps from attribute names to values, so that a
      JSX spread [{...props}] is a union in which the later entry wins;
    - [useState] cells as fields of an explicit store; an event handler is a
      function from the event and the store to a [Result] store;
    - functions supplied by the consumer (onOpenChange, an onClick passed in
      the props) as named callbacks whose invocations are appended to a trace;
    - React's event system as far as the components rely on it: an event
      goes to the listeners of the DOM elements between the root and its
      target, first to those for the capture phase from the root downwards,
      then to those for the bubble phase from the target upwards, until one
      of them stops the propagation; a truthy [disabled] takes the mouse
      listeners from a button, input, select or textarea;
    - JavaScript numbers through an interface of the operations used, with
      IEEE binary64 and the rationals as instances.

    What is left out: styling and animation attributes (className, style and
    the framer-motion initial/animate/exit/transition) and DOM refs.  The
    former are erased from every props object before it is spread. *)

From Stdlib Require Import Floats.PrimFloat Numbers.Cyclic.Int63.Uint63 QArith.
From stdpp Require Import gmap strings list pretty.

Set Default Proof Using "Type".
Set Warnings "-register-all".

(** ** Results: a value, or a thrown [Error] with its message *)

Inductive Result (A : Type) : Type :=
| Ok (a : A)
| Throw (msg : string).
Arguments Ok {A} a.
Arguments Throw {A} msg.

#[global] Instance Result_bind : MBind Result := fun A B k r =>
  match r with
  | Ok a => k a
  | Throw msg => Throw msg
  end.

#[global] Instance Result_fmap : FMap Result := fun A B f r =>
  match r with
  | Ok a => Ok (f a)
  | Throw msg => Throw msg
  end.

(** ** Events, consumer callbacks and the trace of their invocations *)

Record Event := { target_value : string }.

Definition click : Event := {| target_value := "" |}.

Definition Callback := string.

Inductive Arg :=
| ArgBool (b : bool)
| ArgString (s : string)
| ArgEvent (e : Event).

Inductive Effect :=
| Invoked (cb : Callback) (arg : Arg)
| StopPropagation.

Class Traced (W : Type) := log : Effect -> W -> W.

(** ** Props and rendered trees *)

(** A value a consumer can put in a props object. *)
Inductive AttrValue :=
| AStr (s : string)
| ABool (b : bool)
| ACallback (cb : Callback)
| AUndefined.

(** JavaScript truthiness, as used by [||] and [if]. *)
Definition truthy (a : AttrValue) : bool :=
  match a with
  | AStr s => negb (String.eqb s "")
  | ABool b => b
  | ACallback _ => true
  | AUndefined => false
  end.

(** A value in the props of a rendered element: one passed through from the
    consumer, or a closure the component installed. *)
Inductive PropValue (W : Type) :=
| PAttr (a : AttrValue)
| PHandler (h : Event -> W -> Result W).
Arguments PAttr {W} a.
Arguments PHandler {W} h.

Inductive ElemType :=
| Host (tag : string)
| Component (displayName : string)
| Fragment.

Inductive Container := DocumentBody.

Inductive ReactNode (W : Type) :=
| RNull
| RText (s : string)
| RElem (type : ElemType) (props : gmap string (PropValue W))
        (children : list (ReactNode W))
| RPortal (children : ReactNode W) (container : Container).
Arguments RNull {W}.
Arguments RText {W} s.
Arguments RElem {W} type props children.
Arguments RPortal {W} children container.

(** [createPortal(children, container)] *)
Definition createPortal {W} (children : ReactNode W) (container : Container)
  : ReactNode W := RPortal children container.

Definition isValidElement {W} (node : ReactNode W) : bool :=
  match node with RElem _ _ _ => true | _ => false end.

(** [React.Children.only]: returns the only child when [children] is a single
    React element and throws otherwise. *)
Definition Children_only {W} (children : list (ReactNode W))
  : Result (ReactNode W) :=
  match children with
  | [RElem type props cs] => Ok (RElem type props cs)
  | _ => Throw "React.Children.only expected to receive a single React element child."
  end.

(** [element.props], without the children. *)
Definition props_of {W} (element : ReactNode W) : gmap string (PropValue W) :=
  match element with
  | RElem _ props _ => props
  | _ => ∅
  end.

(** [React.cloneElement(element, config)]: the entries of [config] replace
    those of the props of [element]. *)
Definition cloneElement {W} (element : ReactNode W)
  (config : gmap string (PropValue W)) : ReactNode W :=
  match element with
  | RElem type props children => RElem type (config ∪ props) children
  | other => other
  end.

(** The attributes the model leaves out. *)
Definition erase {V} (props : gmap string V) : gmap string V :=
  delete "className" (delete "style" (delete "initial" (delete "animate"
    (delete "exit" (delete "transition" props))))).

(** [{...props}] inside a JSX element. *)
Definition spread {W} (props : gmap string AttrValue)
  : gmap string (PropValue W) := PAttr <$> erase props.

(** [typeof] of a prop value that is not a function. *)
Definition typeof (a : AttrValue) : string :=
  match a with
  | AStr _ => "string"
  | ABool _ => "boolean"
  | ACallback _ => "function"
  | AUndefined => "undefined"
  end.

(** Calling a prop as a function, [v(e)]: a closure runs, a callback of the
    consumer is recorded, anything else is a TypeError. *)
Definition call {W} `{Traced W} (name : string) (v : PropValue W) (e : Event)
  (w : W) : Result W :=
  match v with
  | PHandler h => h e w
  | PAttr (ACallback cb) => Ok (log (Invoked cb (ArgEvent e)) w)
  | PAttr _ => Throw (name +:+ " is not a function")
  end.

(** ** Events on the rendered tree, after React's event system *)

(** The DOM elements on which a truthy [disabled] switches mouse events
    off. *)
Definition interactive (type : ElemType) : bool :=
  match type with
  | Host tag => bool_decide (tag ∈ ["button"; "input"; "select"; "textarea"])
  | _ => false
  end.

Definition mouse_event (name : string) : bool :=
  bool_decide (name ∈ ["onClick"; "onClickCapture"; "onDoubleClick";
                       "onDoubleClickCapture"; "onMouseDown";
                       "onMouseDownCapture"; "onMouseMove";
                       "onMouseMoveCapture"; "onMouseUp"; "onMouseUpCapture";
                       "onMouseEnter"]).

Definition truthy_prop {W} (v : option (PropValue W)) : bool :=
  match v with
  | Some (PAttr a) => truthy a
  | Some (PHandler _) => true
  | None => false
  end.

(** A disabled button, input, select or textarea has no mouse listeners. *)
Definition shouldPreventMouseEvent {W} (name : string) (type : ElemType)
  (props : gmap string (PropValue W)) : bool :=
  mouse_event name && (truthy_prop (props !! "disabled") && interactive type).

(** What an element contributes to the dispatch of an event: a closure of a
    component, a callback of the consumer, or a value that is neither null
    nor a function and fails when it is called. *)
Inductive Listener (W : Type) :=
| Closure (h : Event -> W -> Result W)
| Consumer (cb : Callback)
| NotCallable (a : AttrValue).
Arguments Closure {W} h.
Arguments Consumer {W} cb.
Arguments NotCallable {W} a.

(** The listener of an element for the event [name].  Only DOM elements
    have listeners (framer-motion's motion.div counts as the div it
    renders with the props it is given); what a component does with its
    props is not known.  A missing or undefined prop is no listener, a
    truthy prop that is no function is refused at once. *)
Definition getListener {W} (name : string) (node : ReactNode W)
  : Result (option (Listener W)) :=
  match node with
  | RElem (Host tag) props _ =>
      if shouldPreventMouseEvent name (Host tag) props then Ok None
      else
        match props !! name with
        | None => Ok None
        | Some (PHandler h) => Ok (Some (Closure h))
        | Some (PAttr (ACallback cb)) => Ok (Some (Consumer cb))
        | Some (PAttr AUndefined) => Ok None
        | Some (PAttr a) =>
            if truthy a
            then Throw ("Expected `" +:+ name
                        +:+ "` listener to be a function, instead got a value of `"
                        +:+ typeof a +:+ "` type.")
            else Ok (Some (NotCallable a))
        end
  | _ => Ok None
  end.

(** Running one listener.  A callback of the consumer is recorded; it is
    taken to touch no state of the component and not to stop the
    propagation. *)
Definition invoke {W} `{Traced W} (l : Listener W) (e : Event) (w : W)
  : Result W :=
  match l with
  | Closure h => h e w
  | Consumer cb => Ok (log (Invoked cb (ArgEvent e)) w)
  | NotCallable a => Throw "listener is not a function"
  end.

(** Reading the trace of a store. *)
Class Recorded (W : Type) := recorded : W -> list Effect.

(** Whether [e.stopPropagation()] was called between two stores. *)
Definition stopped {W} `{Recorded W} (before after : W) : bool :=
  existsb (fun effect => match effect with
                         | StopPropagation => true
                         | _ => false
                         end)
    (drop (length (recorded before)) (recorded after)).

(** The elements from the one at [path] up to the root, the target first. *)
Fixpoint lineage {W} (path : list nat) (node : ReactNode W)
  (above : list (ReactNode W)) : option (list (ReactNode W)) :=
  match path with
  | [] => Some (node :: above)
  | i :: path =>
      match node with
      | RElem _ _ children =>
          match children !! i with
          | Some child => lineage path child (node :: above)
          | None => None
          end
      | RPortal child _ =>
          match i with
          | 0 => lineage path child (node :: above)
          | S _ => None
          end
      | _ => None
      end
  end.

(** The name under which a listener for the capture phase is given. *)
Definition capture_name (name : string) : string := name +:+ "Capture".

(** A listener together with the element it belongs to, counted from the
    target upwards. *)
Definition Dispatched (W : Type) : Type := nat * Listener W.

(** The listeners of one phase are collected from the target upwards before
    any of them runs, so a refused listener anywhere on the way fails the
    dispatch. *)
Fixpoint accumulate {W} (name : string) (instance : nat)
  (targets : list (ReactNode W)) : Result (list (Dispatched W)) :=
  match targets with
  | [] => Ok []
  | target :: targets =>
      l ← getListener name target;
      ls ← accumulate name (S instance) targets;
      Ok (match l with
          | Some l => (instance, l) :: ls
          | None => ls
          end)
  end.

(** The events React derives itself (change, select, input composition)
    collect the listeners of both phases in one walk from the target
    upwards: the one for the capture phase is put in front, the one for the
    bubble phase at the end. *)
Definition polyfilled (name : string) : bool :=
  bool_decide (name ∈ ["onChange"; "onSelect"; "onBeforeInput";
                       "onCompositionStart"; "onCompositionUpdate";
                       "onCompositionEnd"]).

Fixpoint accumulateTwoPhase {W} (name : string) (instance : nat)
  (targets : list (ReactNode W)) (listeners : list (Dispatched W))
  : Result (list (Dispatched W)) :=
  match targets with
  | [] => Ok listeners
  | target :: targets =>
      c ← getListener (capture_name name) target;
      b ← getListener name target;
      accumulateTwoPhase name (S instance) targets
        (match c with
         | Some c => [(instance, c)]
         | None => []
         end ++ listeners ++ match b with
                             | Some b => [(instance, b)]
                             | None => []
                             end)
  end.

(** The listeners run in the given order.  Once one of them has stopped the
    propagation, the listeners of the other elements are left out; [halted]
    tells whether that has happened, [previous] is the element of the
    listener that ran last. *)
Fixpoint execute {W} `{Traced W} `{Recorded W} (previous : option nat)
  (halted : bool) (listeners : list (Dispatched W)) (e : Event) (w : W)
  : Result W :=
  match listeners with
  | [] => Ok w
  | (instance, l) :: listeners =>
      if halted && negb (bool_decide (previous = Some instance)) then Ok w
      else
        w' ← invoke l e w;
        execute (Some instance) (halted || stopped w w') listeners e w'
  end.

(** An event on the element at [path] of a rendered tree.  The capture
    phase runs the listeners given as [onClickCapture] and the like from the
    root down to the target, the bubble phase those given as [onClick] from
    the target up to the root; a listener that stops the propagation in the
    capture phase leaves no bubble phase. *)
Definition dispatch {W} `{Traced W} `{Recorded W} (name : string)
  (path : list nat) (rendered : Result (ReactNode W)) (e : Event) (w : W)
  : Result W :=
  root ← rendered;
  match lineage path root [] with
  | Some targets =>
      if polyfilled name
      then ls ← accumulateTwoPhase name 0 targets [];
           execute None false ls e w
      else
        ls ← accumulate (capture_name name) 0 targets;
        w' ← execute None false (reverse ls) e w;
        if stopped w w' then Ok w'
        else ls ← accumulate name 0 targets; execute None false ls e w'
  | None => Ok w
  end.

(** An event on the root of what a component renders: the elements above it
    belong to the consumer. *)
Definition fire {W} `{Traced W} `{Recorded W} (name : string)
  (node : ReactNode W) (e : Event) (w : W) : Result W :=
  dispatch name [] (Ok node) e w.

(** ** State shared by the Drawer and the Sheet models *)

(** [React.SetStateAction<boolean>] *)
Inductive SetStateAction :=
| Value (b : bool)
| Updater (f : bool -> bool).

(** [typeof value === "function" ? value(prev) : value] *)
Definition resolve (value : SetStateAction) (prev : bool) : bool :=
  match value with
  | Value b => b
  | Updater f => f prev
  end.

(** The [useState(defaultOpen)] cell of a Drawer or Sheet, and the trace. *)
Record Store := { uncontrolledOpen : bool; trace : list Effect }.

#[global] Instance Store_traced : Traced Store := fun e w =>
  {| uncontrolledOpen := uncontrolledOpen w; trace := trace w ++ [e] |}.

#[global] Instance Store_recorded : Recorded Store := trace.

Definition setUncontrolledOpen (value : SetStateAction) (w : Store) : Store :=
  {| uncontrolledOpen := resolve value (uncontrolledOpen w);
     trace := trace w |}.

Abbreviation Node := (ReactNode Store).
Abbreviation Attrs := (gmap string AttrValue).

(** ** Drawer *)

Module Drawer.

Record DrawerContextValue := {
  open : bool;
  setOpen : SetStateAction -> Store -> Result Store;
}.

Definition useDrawerContext (context : option DrawerContextValue)
  : Result DrawerContextValue :=
  match context with
  | None => Throw "useDrawerContext must be used within a Drawer"
  | Some c => Ok c
  end.

(** The props of [Drawer] other than [children]. *)
Record DrawerProps := {
  defaultOpen : option bool;
  controlledOpen : option bool;
  onOpenChange : option Callback;
}.

(** First render: [useState(defaultOpen)], with [defaultOpen = false]. *)
Definition initial (p : DrawerProps) : Store :=
  {| uncontrolledOpen := default false (defaultOpen p); trace := [] |}.

(** The context value a render of [Drawer] provides, from the props and the
    current content of the state cell. *)
Definition provide (p : DrawerProps) (w : Store) : DrawerContextValue :=
  let isControlled := bool_decide (is_Some (controlledOpen p)) in
  let open := match controlledOpen p with
              | Some o => o
              | None => uncontrolledOpen w
              end in
  let setOpen := fun (value : SetStateAction) (w : Store) =>
    let w := if negb isControlled then setUncontrolledOpen value w else w in
    match onOpenChange p with
    | Some cb =>
        let nextValue := resolve value open in
        Ok (log (Invoked cb (ArgBool nextValue)) w)
    | None => Ok w
    end in
  {| open := open; setOpen := setOpen |}.

(** [Drawer]: renders its children below the provider. *)
Definition Drawer {A} (p : DrawerProps)
  (children : option DrawerContextValue -> A) (w : Store) : A :=
  children (Some (provide p w)).

Definition DrawerTrigger (context : option DrawerContextValue)
  (children : list Node) (props : Attrs) : Result Node :=
  c ← useDrawerContext context;
  Ok (RElem (Host "button")
        (spread props ∪
         {[ "type" := PAttr (AStr "button");
            "onClick" := PHandler (fun _ => setOpen c (Value true)) ]})
        children).

Definition DrawerContentInner (context : option DrawerContextValue)
  (children : list Node) (props : Attrs) : Result Node :=
  c ← useDrawerContext context;
  Ok (RElem (Host "div") ∅
        [ RElem (Host "motion.div")
            {[ "onClick" := PHandler (fun _ => setOpen c (Value false)) ]} [];
          RElem (Host "motion.div")
            (spread props ∪
             {[ "role" := PAttr (AStr "dialog");
                "aria-modal" := PAttr (AStr "true") ]})
            ([RElem (Host "div") ∅ []] ++ children ++
             [RElem (Host "button")
                {[ "onClick" := PHandler (fun _ => setOpen c (Value false));
                   "aria-label" := PAttr (AStr "Close drawer") ]}
                [ RElem (Component "X") ∅ [];
                  RElem (Host "span") ∅ [RText "Close drawer"] ]]) ]).

Definition DrawerContent (context : option DrawerContextValue)
  (children : list Node) (props : Attrs) : Result Node :=
  c ← useDrawerContext context;
  if negb (open c) then Ok RNull
  else
    inner ← DrawerContentInner context children props;
    Ok (createPortal (RElem (Component "AnimatePresence") ∅ [inner])
          DocumentBody).

Definition DrawerClose (context : option DrawerContextValue)
  (children : list Node) (props : Attrs) : Result Node :=
  c ← useDrawerContext context;
  Ok (RElem (Host "button")
        (spread props ∪
         {[ "type" := PAttr (AStr "button");
            "onClick" := PHandler (fun _ => setOpen c (Value false)) ]})
        children).

(** The four parts that do not read the context. *)
Definition DrawerHeader (children : list Node) (props : Attrs) : Result Node :=
  Ok (RElem (Host "div") (spread props) children).
Definition DrawerFooter (children : list Node) (props : Attrs) : Result Node :=
  Ok (RElem (Host "div") (spread props) children).
Definition DrawerTitle (children : list Node) (props : Attrs) : Result Node :=
  Ok (RElem (Host "h3") (spread props) children).
Definition DrawerDescription (children : list Node) (props : Attrs)
  : Result Node :=
  Ok (RElem (Host "p") (spread props) children).

End Drawer.

(** ** Sheet *)

Module Sheet.

Record SheetContextValue := {
  open : bool;
  setOpen : SetStateAction -> Store -> Result Store;
}.

Record SheetProps := {
  defaultOpen : option bool;
  controlledOpen : option bool;
  onOpenChange : option Callback;
}.

Definition initial (p : SheetProps) : Store :=
  {| uncontrolledOpen := default false (defaultOpen p); trace := [] |}.

Definition provide (p : SheetProps) (w : Store) : SheetContextValue :=
  let isControlled := bool_decide (is_Some (controlledOpen p)) in
  let open := match controlledOpen p with
              | Some o => o
              | None => uncontrolledOpen w
              end in
  let setOpen := fun (value : SetStateAction) (w : Store) =>
    let w := if negb isControlled then setUncontrolledOpen value w else w in
    match onOpenChange p with
    | Some cb =>
        let nextValue := resolve value open in
        Ok (log (Invoked cb (ArgBool nextValue)) w)
    | None => Ok w
    end in
  {| open := open; setOpen := setOpen |}.

Definition Sheet {A} (p : SheetProps)
  (children : option SheetContextValue -> A) (w : Store) : A :=
  children (Some (provide p w)).

(** [React.useContext(SheetContext) || { setOpen: () => {} }] *)
Definition setOpen_or_noop (context : option SheetContextValue)
  : SetStateAction -> Store -> Result Store :=
  match context with
  | Some c => setOpen c
  | None => fun _ w => Ok w
  end.

(** [React.useContext(SheetContext) || { open: false }] *)
Definition open_or_false (context : option SheetContextValue) : bool :=
  match context with
  | Some c => open c
  | None => false
  end.

(** [SheetTrigger] returns, next to the tree, what it wrote with
    [console.error]. *)
Definition SheetTrigger (context : option SheetContextValue)
  (children : list Node) (asChild : bool) (props : Attrs)
  : Result (list string * Node) :=
  let setOpen := setOpen_or_noop context in
  child ← (if asChild then Children_only children else Ok RNull);
  if asChild then
    if negb (isValidElement child) then
      Ok (["SheetTrigger with `asChild` expects a single valid React element child."],
          RNull)
    else
      Ok ([], cloneElement child
                (<[ "onClick" := PHandler (fun e w =>
                      w ← setOpen (Value true) w;
                      match props_of child !! "onClick" with
                      | Some (PAttr a) =>
                          if truthy a
                          then call "child.props.onClick" (PAttr a) e w
                          else Ok w
                      | Some v => call "child.props.onClick" v e w
                      | None => Ok w
                      end) ]>
                   (spread props ∪ props_of child)))
  else
    Ok ([], RElem (Host "button")
              (spread props ∪
               {[ "type" := PAttr (AStr "button");
                  "onClick" := PHandler (fun _ => setOpen (Value true)) ]})
              children).

Definition SheetClose (context : option SheetContextValue)
  (children : list Node) (props : Attrs) : Result Node :=
  let setOpen := setOpen_or_noop context in
  Ok (RElem (Host "button")
        (spread props ∪
         {[ "type" := PAttr (AStr "button");
            "onClick" := PHandler (fun _ => setOpen (Value false)) ]})
        children).

Definition SheetPortal (context : option SheetContextValue)
  (children : list Node) : Result Node :=
  let open := open_or_false context in
  if open then Ok (RElem Fragment ∅ children) else Ok RNull.

(** The props [SheetOverlay] takes out before it spreads the rest. *)
Definition restProps (props : Attrs) : Attrs :=
  delete "onDrag" (delete "onDragEnd" (delete "onDragStart"
    (delete "onDragExit" (delete "onDragEnter" (delete "onDragLeave"
      (delete "onDragOver" (delete "onDrop"
        (delete "onAnimationStart" props)))))))).

Definition SheetOverlay (context : option SheetContextValue)
  (children : list Node) (props : Attrs) : Result Node :=
  let setOpen := setOpen_or_noop context in
  Ok (RElem (Host "motion.div")
        (spread (restProps props) ∪
         {[ "onClick" := PHandler (fun _ => setOpen (Value false)) ]})
        children).

Definition SheetContentInner (context : option SheetContextValue)
  (children : list Node) (props : Attrs) : Result Node :=
  let open := open_or_false context in
  let setOpen := setOpen_or_noop context in
  if negb open then Ok RNull
  else
    Ok (RElem (Host "div") ∅
          [ RElem (Host "motion.div")
              {[ "onClick" := PHandler (fun _ => setOpen (Value false)) ]} [];
            RElem (Host "motion.div") (spread (delete "side" props))
              children ]).

(** [SheetContent]; [mounted] is its own state cell, [false] on the first
    render and set to [true] by the effect that runs after it. *)
Definition SheetContent (context : option SheetContextValue) (mounted : bool)
  (children : list Node) (props : Attrs) : Result Node :=
  let open := open_or_false context in
  if negb mounted || negb open then Ok (RElem (Host "div") ∅ [])
  else
    let setOpen := fun (arg0 : bool) (w : Store) =>
      @Throw Store "Function not implemented." in
    Ok (createPortal
          (RElem (Component "AnimatePresence") ∅
             [ RElem (Host "div") ∅
                 [ RElem (Host "motion.div")
                     {[ "onClick" := PHandler (fun _ => setOpen false) ]} [];
                   RElem (Host "motion.div") (spread props) children ] ])
          DocumentBody).

Definition SheetHeader (children : list Node) (props : Attrs) : Result Node :=
  Ok (RElem (Host "div") (spread props) children).
Definition SheetFooter (children : list Node) (props : Attrs) : Result Node :=
  Ok (RElem (Host "div") (spread props) children).
Definition SheetTitle (children : list Node) (props : Attrs) : Result Node :=
  Ok (RElem (Host "h3") (spread props) children).
Definition SheetDescription (children : list Node) (props : Attrs)
  : Result Node :=
  Ok (RElem (Host "p") (spread props) children).

End Sheet.

(** ** Select *)

Module Select.

(** The three [useState] cells of [Select], and the trace. *)
Module State.
Record t := {
  selectedValue : string;
  isOpen : bool;
  searchQuery : string;
  trace : list Effect;
}.

Definition setSelectedValue (v : string) (w : t) : t :=
  {| selectedValue := v; isOpen := isOpen w;
     searchQuery := searchQuery w; trace := trace w |}.

Definition setIsOpen (o : bool) (w : t) : t :=
  {| selectedValue := selectedValue w; isOpen := o;
     searchQuery := searchQuery w; trace := trace w |}.

Definition setSearchQuery (q : string) (w : t) : t :=
  {| selectedValue := selectedValue w; isOpen := isOpen w;
     searchQuery := q; trace := trace w |}.
End State.

#[global] Instance State_traced : Traced State.t := fun e w =>
  {| State.selectedValue := State.selectedValue w;
     State.isOpen := State.isOpen w;
     State.searchQuery := State.searchQuery w;
     State.trace := State.trace w ++ [e] |}.

#[global] Instance State_recorded : Recorded State.t := State.trace.

(** The props of [Select] other than [children]. *)
Module Props.
Record t := {
  defaultValue : option string;
  value : option string;
  onValueChange : option Callback;
  defaultOpen : option bool;
  open : option bool;
  onOpenChange : option Callback;
  disabled : option bool;
}.
End Props.

Abbreviation SNode := (ReactNode State.t).

Record SelectContextType := {
  value : string;
  onValueChange : string -> State.t -> Result State.t;
  open : bool;
  setOpen : bool -> State.t -> Result State.t;
  searchQuery : string;
  setSearchQuery : string -> State.t -> Result State.t;
}.

(** First render: [useState(value || defaultValue)],
    [useState(open || defaultOpen)], [useState("")]. *)
Definition initial (p : Props.t) : State.t :=
  {| State.selectedValue :=
       match Props.value p with
       | Some v => if String.eqb v "" then default "" (Props.defaultValue p)
                   else v
       | None => default "" (Props.defaultValue p)
       end;
     State.isOpen :=
       match Props.open p with
       | Some true => true
       | _ => default false (Props.defaultOpen p)
       end;
     State.searchQuery := "";
     State.trace := [] |}.

Definition handleValueChange (p : Props.t) (newValue : string) (w : State.t)
  : Result State.t :=
  let w := if bool_decide (Props.value p = None)
           then State.setSelectedValue newValue w else w in
  match Props.onValueChange p with
  | Some cb => Ok (log (Invoked cb (ArgString newValue)) w)
  | None => Ok w
  end.

Definition handleOpenChange (p : Props.t) (newOpen : bool) (w : State.t)
  : Result State.t :=
  if default false (Props.disabled p) then Ok w
  else
    let w := if bool_decide (Props.open p = None)
             then State.setIsOpen newOpen w else w in
    match Props.onOpenChange p with
    | Some cb => Ok (log (Invoked cb (ArgBool newOpen)) w)
    | None => Ok w
    end.

Definition provide (p : Props.t) (w : State.t) : SelectContextType :=
  {| value := State.selectedValue w;
     onValueChange := handleValueChange p;
     open := State.isOpen w;
     setOpen := handleOpenChange p;
     searchQuery := State.searchQuery w;
     setSearchQuery := fun q w => Ok (State.setSearchQuery q w) |}.

Definition Select {A} (p : Props.t)
  (children : option SelectContextType -> A) (w : State.t) : A :=
  children (Some (provide p w)).

(** The three effects of [Select].  The first two depend on the props only
    and run after the first render; the third runs after every render in
    which [isOpen] differs from the render before. *)
Definition effect_value (p : Props.t) (w : State.t) : State.t :=
  match Props.value p with
  | Some v => State.setSelectedValue v w
  | None => w
  end.

Definition effect_open (p : Props.t) (w : State.t) : State.t :=
  match Props.open p with
  | Some o => State.setIsOpen o w
  | None => w
  end.

Definition effect_query (rendered_isOpen : bool) (w : State.t) : State.t :=
  if negb rendered_isOpen then State.setSearchQuery "" w else w.

(** After a render with store [after] that follows one with store [before]
    under the same props. *)
Definition commit (before after : State.t) : State.t :=
  if Bool.eqb (State.isOpen before) (State.isOpen after) then after
  else effect_query (State.isOpen after) after.

Definition mount (p : Props.t) : State.t :=
  let w0 := initial p in
  let w1 := effect_query (State.isOpen w0) (effect_open p (effect_value p w0)) in
  commit w0 w1.

Definition SelectGroup (children : list SNode) (props : Attrs)
  : Result SNode :=
  Ok (RElem (Host "div") (spread props) children).

(** Truthiness of a [children] value: nothing, [null] and the empty string
    are falsy. *)
Definition truthy_children (children : list SNode) : bool :=
  match children with
  | [] => false
  | [RNull] => false
  | [RText s] => negb (String.eqb s "")
  | _ => true
  end.

Definition displayName (type : ElemType) : option string :=
  match type with
  | Component name => Some name
  | _ => None
  end.

(** The callback [findDisplayValue] passes to [React.Children.forEach], with
    the variable [displayValue] threaded through. *)
Fixpoint findDisplayValue_node (context_value : string)
  (displayValue : list SNode) (node : SNode) : list SNode :=
  match node with
  | RElem type props children =>
      if truthy_children displayValue then displayValue
      else if bool_decide (displayName type = Some "SelectItem")
              && match props !! "value" with
                 | Some (PAttr (AStr v)) => String.eqb v context_value
                 | _ => false
                 end
      then children
      else if bool_decide (displayName type = Some "SelectGroup")
      then fold_left (findDisplayValue_node context_value) children
             displayValue
      else displayValue
  | _ => displayValue
  end.

Definition findDisplayValue (context_value : string) (nodes : list SNode)
  : list SNode :=
  fold_left (findDisplayValue_node context_value) nodes [].

Definition SelectValue (context : option SelectContextType)
  (children : list SNode) (placeholder : option string) (props : Attrs)
  : Result SNode :=
  match context with
  | None => Throw "SelectValue must be used within a Select"
  | Some context =>
      (* the context value has no __SECRET_INTERNALS... entry *)
      let parentChildren := children in
      let displayValue := findDisplayValue (value context) parentChildren in
      let content :=
        if truthy_children displayValue then displayValue
        else if negb (String.eqb (value context) "")
        then [RText (value context)]
        else match placeholder with
             | Some s => [RText s]
             | None => []
             end in
      Ok (RElem (Host "span") (spread props)
            (if truthy_children content then content
             else [RElem (Host "span") ∅ [RText "Select an option"]]))
  end.

Definition SelectTrigger (context : option SelectContextType)
  (children : list SNode) (props : Attrs) : Result SNode :=
  match context with
  | None => Throw "SelectTrigger must be used within a Select"
  | Some context =>
      let open := open context in
      let setOpen := setOpen context in
      Ok (RElem (Host "button")
            (spread props ∪
             {[ "type" := PAttr (AStr "button");
                "data-state" := PAttr (AStr (if open then "open" else "closed"));
                "onClick" := PHandler (fun _ => setOpen (negb open));
                "aria-expanded" := PAttr (ABool open) ]})
            ((if open
              then [RElem (Host "input")
                      {[ "type" := PAttr (AStr "text");
                         "value" := PAttr (AStr (searchQuery context));
                         "onChange" := PHandler (fun e =>
                            setSearchQuery context (target_value e));
                         "onClick" := PHandler (fun e w =>
                            Ok (log StopPropagation w));
                         "placeholder" := PAttr (AStr "Search...") ]} []]
              else children) ++
             [RElem (Component "ChevronDown") ∅ []]))
  end.

End Select.

(** ** ThreeDImageRing *)

Module Ring.

(** The arithmetic of JavaScript numbers the component uses.  The component
    is written once over this interface; [binary64] below is the arithmetic
    the code runs on, [exact] the rational arithmetic it approximates. *)
Class Number (num : Type) := {
  add : num -> num -> num;
  sub : num -> num -> num;
  mul : num -> num -> num;
  div : num -> num -> num;
  neg : num -> num;
  of_nat : nat -> num;
  zero : num;
  half : num;
  one : num;
  full_turn : num;
}.

#[global] Instance binary64 : Number float := {|
  add := PrimFloat.add;
  sub := PrimFloat.sub;
  mul := PrimFloat.mul;
  div := PrimFloat.div;
  neg := PrimFloat.opp;
  of_nat := fun n => PrimFloat.of_uint63 (Uint63.of_Z (Z.of_nat n));
  zero := 0%float;
  half := 0.5%float;
  one := 1%float;
  full_turn := 360%float;
|}.

#[global] Instance exact : Number Q := {|
  add := Qplus;
  sub := Qminus;
  mul := Qmult;
  div := Qdiv;
  neg := Qopp;
  of_nat := fun n => inject_Z (Z.of_nat n);
  zero := 0%Q;
  half := (1 # 2)%Q;
  one := 1%Q;
  full_turn := inject_Z 360;
|}.

Section Component.
Context {num : Type} `{Number num}.

Record ThreeDImageRingProps := {
  images : list string;
  imageDistance : num;
  initialRotation : num;
  staggerDelay : num;
  hoverOpacity : num;
  draggable : option bool;
}.

(** The two motion values and the [hoveredIndex] state cell. *)
Record State := {
  rotationX : num;
  rotationY : num;
  hoveredIndex : option nat;
}.

Record Position := { rotateY : num; translateZ : num }.

(** [(index / images.length) * 360] *)
Definition angle (index length : nat) : num :=
  mul (div (of_nat index) (of_nat length)) full_turn.

Definition imagePositions (images : list string) (imageDistance : num)
  : list Position :=
  imap (fun index _ =>
          {| rotateY := angle index (length images);
             translateZ := imageDistance |}) images.

Record Delta := { x : num; y : num }.

Definition handleDrag (p : ThreeDImageRingProps) (delta : Delta) (s : State)
  : State :=
  if negb (default true (draggable p)) then s
  else
    let s := {| rotationX := rotationX s;
                rotationY := add (rotationY s) (mul (x delta) half);
                hoveredIndex := hoveredIndex s |} in
    {| rotationX := sub (rotationX s) (mul (y delta) half);
       rotationY := rotationY s;
       hoveredIndex := hoveredIndex s |}.

Definition onHoverStart (index : nat) (s : State) : State :=
  {| rotationX := rotationX s; rotationY := rotationY s;
     hoveredIndex := Some index |}.

Definition onHoverEnd (s : State) : State :=
  {| rotationX := rotationX s; rotationY := rotationY s;
     hoveredIndex := None |}.

(** The CSS transform [rotateY(<a>deg)]. *)
Inductive Transform := RotateY_deg (a : num).

(** What the component renders for one image: the style and the animation
    target of the wrapping element, and the [img] inside it. *)
Record ImageView := {
  key : nat;
  style : Position;
  animate_opacity : num;
  animate : Position;
  transition_delay : num;
  img_src : string;
  img_alt : string;
  img_transform : Transform;
}.

(** The body of [images.map((image, index) => ...)]; reading a property of
    [imagePositions[index]] throws when the index is out of range. *)
Definition view (p : ThreeDImageRingProps) (s : State)
  (positions : list Position) (index : nat) (image : string)
  : Result ImageView :=
  match positions !! index with
  | None => Throw "Cannot read properties of undefined (reading 'rotateY')"
  | Some position =>
      Ok {| key := index;
            style := position;
            animate_opacity :=
              match hoveredIndex s with
              | Some hovered =>
                  if bool_decide (hovered ≠ index) then hoverOpacity p
                  else one
              | None => one
              end;
            animate := {| rotateY := rotateY position;
                          translateZ := imageDistance p |};
            transition_delay := mul (of_nat index) (staggerDelay p);
            img_src := image;
            img_alt := "Ring image " +:+ pretty (index + 1)%nat;
            img_transform := RotateY_deg (neg (rotateY position)) |}
  end.

Fixpoint views_from (p : ThreeDImageRingProps) (s : State)
  (positions : list Position) (index : nat) (images : list string)
  : Result (list ImageView) :=
  match images with
  | [] => Ok []
  | image :: rest =>
      v ← view p s positions index image;
      vs ← views_from p s positions (S index) rest;
      Ok (v :: vs)
  end.

(** The list of image elements [ThreeDImageRing] renders inside the ring. *)
Definition ThreeDImageRing (p : ThreeDImageRingProps) (s : State)
  : Result (list ImageView) :=
  let imagePositions := imagePositions (images p) (imageDistance p) in
  views_from p s imagePositions 0 (images p).

(** [useMotionValue(0)], [useMotionValue(initialRotation)],
    [useState(null)]. *)
Definition initial (p : ThreeDImageRingProps) : State :=
  {| rotationX := zero; rotationY := initialRotation p;
     hoveredIndex := None |}.

End Component.

Arguments ThreeDImageRingProps : clear implicits.
Arguments State : clear implicits.
Arguments Position : clear implicits.
Arguments Delta : clear implicits.
Arguments Transform : clear implicits.
Arguments ImageView : clear implicits.

End Ring.

(** * Clicks and scenarios *)

Definition closed_drawer : Drawer.DrawerContextValue :=
  Drawer.provide
    {| Drawer.defaultOpen := None; Drawer.controlledOpen := None;
       Drawer.onOpenChange := None |}
    {| uncontrolledOpen := false; trace := [] |}.

Definition closed_sheet : Sheet.SheetContextValue :=
  Sheet.provide
    {| Sheet.defaultOpen := None; Sheet.controlledOpen := Some false;
       Sheet.onOpenChange := Some "onOpenChange" |}
    {| uncontrolledOpen := true; trace := [] |}.

Definition open_drawer : Drawer.DrawerContextValue :=
  Drawer.provide
    {| Drawer.defaultOpen := Some true; Drawer.controlledOpen := None;
       Drawer.onOpenChange := None |}
    {| uncontrolledOpen := true; trace := [] |}.

Definition open_sheet : Sheet.SheetContextValue :=
  Sheet.provide
    {| Sheet.defaultOpen := None; Sheet.controlledOpen := Some true;
       Sheet.onOpenChange := None |}
    {| uncontrolledOpen := false; trace := [] |}.

Definition controlled_drawer : Drawer.DrawerProps :=
  {| Drawer.defaultOpen := None; Drawer.controlledOpen := Some true;
     Drawer.onOpenChange := Some "onDrawerChange" |}.

Definition controlled_sheet : Sheet.SheetProps :=
  {| Sheet.defaultOpen := Some true; Sheet.controlledOpen := Some false;
     Sheet.onOpenChange := Some "onSheetChange" |}.

(** A click on the root element of a rendered component, as far as the
    component is concerned: what the elements around it do is not its
    business. *)
Definition click_on {W} `{Traced W} `{Recorded W}
  (rendered : Result (ReactNode W)) (w : W) : Result W :=
  node ← rendered; fire "onClick" node click w.

Definition Drawer_click_trigger (p : Drawer.DrawerProps)
  (children : list Node) (props : Attrs) (w : Store) : Result Store :=
  click_on (Drawer.Drawer p
              (fun context => Drawer.DrawerTrigger context children props) w)
    w.

Definition Drawer_click_close (p : Drawer.DrawerProps)
  (children : list Node) (props : Attrs) (w : Store) : Result Store :=
  click_on (Drawer.Drawer p
              (fun context => Drawer.DrawerClose context children props) w)
    w.

Definition Sheet_click_trigger (p : Sheet.SheetProps)
  (children : list Node) (asChild : bool) (props : Attrs) (w : Store)
  : Result Store :=
  click_on (Sheet.Sheet p
              (fun context =>
                 snd <$> Sheet.SheetTrigger context children asChild props) w)
    w.

Definition Sheet_click_close (p : Sheet.SheetProps)
  (children : list Node) (props : Attrs) (w : Store) : Result Store :=
  click_on (Sheet.Sheet p
              (fun context => Sheet.SheetClose context children props) w)
    w.

(** A click on the trigger of a Select, and the effects of the render that
    follows it. *)
Definition Select_click_trigger (p : Select.Props.t)
  (children : list Select.SNode) (props : Attrs) (w : Select.State.t)
  : Result Select.State.t :=
  w' ← click_on (Select.Select p
                   (fun context =>
                      Select.SelectTrigger context children props) w)
         w;
  Ok (Select.commit w w').

(** The node reached from [node] by taking, at each step, the child with the
    given index; a portal has its content as only child. *)
Fixpoint descend {W} (path : list nat) (node : ReactNode W)
  : option (ReactNode W) :=
  match path with
  | [] => Some node
  | i :: path =>
      match node with
      | RElem _ _ children => children !! i ≫= descend path
      | RPortal child _ =>
          match i with
          | 0 => descend path child
          | S _ => None
          end
      | _ => None
      end
  end.

(** A click on the element at [path] below the root: it goes down from the
    root to that element and bubbles up to the root again. *)
Definition click_at {W} `{Traced W} `{Recorded W} (path : list nat)
  (rendered : Result (ReactNode W)) (w : W) : Result W :=
  dispatch "onClick" path rendered click w.

(** In what [SheetContent] renders when open: portal, AnimatePresence,
    wrapper, and the backdrop as its first child. *)
Definition SheetContent_backdrop : list nat := [0; 0; 0].

Definition closed_store : Store := {| uncontrolledOpen := false; trace := [] |}.

Definition uncontrolled_drawer : Drawer.DrawerProps :=
  {| Drawer.defaultOpen := None; Drawer.controlledOpen := None;
     Drawer.onOpenChange := None |}.

Definition uncontrolled_sheet : Sheet.SheetProps :=
  {| Sheet.defaultOpen := None; Sheet.controlledOpen := None;
     Sheet.onOpenChange := None |}.

Definition uncontrolled_select : Select.Props.t :=
  {| Select.Props.defaultValue := None; Select.Props.value := None;
     Select.Props.onValueChange := None; Select.Props.defaultOpen := None;
     Select.Props.open := None; Select.Props.onOpenChange := None;
     Select.Props.disabled := None |}.

(** Props that carry an onClick of the consumer. *)
Definition tracked : Attrs := {[ "onClick" := ACallback "track" ]}.

Definition open_store : Store := {| uncontrolledOpen := true; trace := [] |}.

(** The defaults of the component: imageDistance = 300, staggerDelay = 0.1
    and hoverOpacity = 0.3, the last two as the binary64 values nearest to
    them. *)
Definition ring_of_four : Ring.ThreeDImageRingProps float :=
  {| Ring.images := ["a.png"; "b.png"; "c.png"; "d.png"];
     Ring.imageDistance := 300%float;
     Ring.initialRotation := 0%float;
     Ring.staggerDelay := 0x1.999999999999ap-4%float;
     Ring.hoverOpacity := 0x1.3333333333333p-2%float;
     Ring.draggable := None |}.

Definition fixed_ring : Ring.ThreeDImageRingProps float :=
  {| Ring.images := ["a.png"];
     Ring.imageDistance := 300%float;
     Ring.initialRotation := 10%float;
     Ring.staggerDelay := 0x1.999999999999ap-4%float;
     Ring.hoverOpacity := 0x1.3333333333333p-2%float;
     Ring.draggable := Some false |}.

Definition drag_4_6 : Ring.Delta float :=
  {| Ring.x := 4%float; Ring.y := 6%float |}.


(** * Further events and scenarios *)

(** An event on the element at [path] of a rendered tree. *)
Definition fire_at {W} `{Traced W} `{Recorded W} (name : string)
  (path : list nat) (rendered : Result (ReactNode W)) (e : Event) (w : W)
  : Result W :=
  dispatch name path rendered e w.

(** Props without a truthy [disabled]. *)
Definition enabled (props : Attrs) : bool :=
  negb (default false (truthy <$> props !! "disabled")).

(** What [DrawerContent] renders below a Drawer with store [w]. *)
Definition Drawer_content (p : Drawer.DrawerProps) (children : list Node)
  (props : Attrs) (w : Store) : Result Node :=
  Drawer.Drawer p
    (fun context => Drawer.DrawerContent context children props) w.

(** In what [DrawerContent] renders when open: portal, AnimatePresence,
    wrapper; the backdrop is the first child of the wrapper, the dialog the
    second, and the close button the last child of the dialog, after the
    handle and the children. *)
Definition DrawerContent_backdrop : list nat := [0; 0; 0].

Definition DrawerContent_close_button (children : list Node) : list nat :=
  [0; 0; 1; S (length children)].

Definition Drawer_click_backdrop (p : Drawer.DrawerProps)
  (children : list Node) (props : Attrs) (w : Store) : Result Store :=
  click_at DrawerContent_backdrop (Drawer_content p children props w) w.

Definition Sheet_click_overlay (p : Sheet.SheetProps)
  (children : list Node) (props : Attrs) (w : Store) : Result Store :=
  click_on (Sheet.Sheet p
              (fun context => Sheet.SheetOverlay context children props) w)
    w.

(** Typing into the search input of the trigger of a Select (the first child
    of the button while the Select is open) until it holds [text].  React
    derives a change event from that when the input holds another value than
    before, which was the search query; the effects of the render that
    follows come after it. *)
Definition Select_type (p : Select.Props.t) (children : list Select.SNode)
  (props : Attrs) (text : string) (w : Select.State.t)
  : Result Select.State.t :=
  if String.eqb text (Select.State.searchQuery w) then Ok w
  else
    w' ← fire_at "onChange" [0]
           (Select.Select p
              (fun context => Select.SelectTrigger context children props) w)
           {| target_value := text |} w;
    Ok (Select.commit w w').

(** A Select is in a settled state when, closed, its search query is
    empty. *)
Definition query_cleared (w : Select.State.t) : Prop :=
  Select.State.isOpen w = false -> Select.State.searchQuery w = "".


Definition notifying_drawer : Drawer.DrawerProps :=
  {| Drawer.defaultOpen := None; Drawer.controlledOpen := None;
     Drawer.onOpenChange := Some "onOpenChange" |}.

Definition notifying_sheet : Sheet.SheetProps :=
  {| Sheet.defaultOpen := None; Sheet.controlledOpen := None;
     Sheet.onOpenChange := Some "onOpenChange" |}.

Definition controlled_select : Select.Props.t :=
  {| Select.Props.defaultValue := Some "apple"; Select.Props.value := Some "";
     Select.Props.onValueChange := Some "onValueChange";
     Select.Props.defaultOpen := Some true; Select.Props.open := Some false;
     Select.Props.onOpenChange := Some "onOpenChange";
     Select.Props.disabled := None |}.

Definition disabled_select : Select.Props.t :=
  {| Select.Props.defaultValue := None; Select.Props.value := None;
     Select.Props.onValueChange := None; Select.Props.defaultOpen := None;
     Select.Props.open := None;
     Select.Props.onOpenChange := Some "onOpenChange";
     Select.Props.disabled := Some true |}.

Definition open_select_store : Select.State.t :=
  {| Select.State.selectedValue := "pear"; Select.State.isOpen := true;
     Select.State.searchQuery := "pe"; Select.State.trace := [] |}.

Definition pear_item : Select.SNode :=
  RElem (Component "SelectItem") {[ "value" := PAttr (AStr "pear") ]}
    [RText "Pear"].

Definition hovering (index : nat) : Ring.State float :=
  Ring.onHoverStart index (Ring.initial ring_of_four).

(** The props of a link with an id and an onClick callback of its own. *)
Definition link_props : gmap string (PropValue Store) :=
  {[ "href" := PAttr (AStr "/menu"); "id" := PAttr (AStr "link");
     "onClick" := PAttr (ACallback "navigate") ]}.

(** A node [findDisplayValue] passes over when it looks for [context_value]:
    anything but a SelectGroup and a SelectItem of that value. *)
Definition skipped (context_value : string) (node : Select.SNode) : bool :=
  match node with
  | RElem type props _ =>
      negb (bool_decide (Select.displayName type = Some "SelectGroup"))
      && negb (bool_decide (Select.displayName type = Some "SelectItem")
               && match props !! "value" with
                  | Some (PAttr (AStr v)) => String.eqb v context_value
                  | _ => false
                  end)
  | _ => true
  end.

(** The span SelectValue falls back to. *)
Definition select_an_option : Select.SNode :=
  RElem (Host "span") ∅ [RText "Select an option"].

(** Props that switch the element off. *)
Definition switched_off : Attrs := {[ "disabled" := ABool true ]}.

(** Whether the element a SheetTrigger with asChild returns has its mouse
    listeners switched off: [disabled], from the trigger or from the child,
    on a button, input, select or textarea. *)
Definition asChild_prevented (tag : string) (props : Attrs)
  (child_props : gmap string (PropValue Store)) : bool :=
  truthy_prop ((spread props ∪ child_props : gmap string (PropValue Store))
                 !! "disabled")
  && interactive (Host tag).

(** An onClick of the child that is absent, falsy or a callback of the
    consumer. *)
Definition plain_onClick (v : option (PropValue Store)) : bool :=
  match v with
  | None => true
  | Some (PAttr (ACallback _)) => true
  | Some (PAttr a) => negb (truthy a)
  | Some (PHandler _) => false
  end.

(** A click on the search input of the trigger of a Select (the first child
    of the button while the Select is open), and the effects of the render
    that follows. *)
Definition Select_click_input (p : Select.Props.t)
  (children : list Select.SNode) (props : Attrs) (w : Select.State.t)
  : Result Select.State.t :=
  w' ← click_at [0]
         (Select.Select p
            (fun context => Select.SelectTrigger context children props) w)
         w;
  Ok (Select.commit w w').

(** * Properties *)

(** ** Lookups in spread props *)

Lemma lookup_erase {V} (props : gmap string V) (k : string) :
  k ∉ ["className"; "style"; "initial"; "animate"; "exit"; "transition"] ->
  erase props !! k = props !! k.
Proof.
  intros Hk. unfold erase.
  repeat (rewrite lookup_delete_ne; [| intros <-; apply Hk; set_solver]).
  done.
Qed.

Lemma lookup_spread_onClick {W} (props : Attrs) :
  (spread props : gmap string (PropValue W)) !! "onClick"
  = PAttr <$> props !! "onClick".
Proof.
  unfold spread. rewrite lookup_fmap, lookup_erase; [done |].
  apply (bool_decide_unpack _). reflexivity.
Qed.

(** A component's own [onClick] is the listener exactly when the props it
    spreads afterwards have no [onClick] entry. *)
Lemma onClick_kept {W} (props : Attrs) (own : gmap string (PropValue W)) :
  props !! "onClick" = None ->
  (spread props ∪ own) !! "onClick" = own !! "onClick".
Proof.
  intros Hno. apply lookup_union_r.
  by rewrite lookup_spread_onClick, Hno.
Qed.

Lemma onClick_replaced {W} (props : Attrs) (own : gmap string (PropValue W))
  (a : AttrValue) :
  props !! "onClick" = Some a ->
  (spread props ∪ own) !! "onClick" = Some (PAttr a).
Proof.
  intros Hsome. apply lookup_union_Some_l.
  by rewrite lookup_spread_onClick, Hsome.
Qed.

(** ** Rendering outside the provider *)

(** C2. Each of DrawerTrigger, DrawerContent and DrawerClose rendered with no
    Drawer above it, and each of SelectValue and SelectTrigger rendered with
    no Select above it, throws: no tree is returned, for any children and
    props. *)
Theorem outside_provider_throws :
  (forall (children : list Node) (props : Attrs),
      Drawer.DrawerTrigger None children props
      = Throw "useDrawerContext must be used within a Drawer"
      /\ Drawer.DrawerContent None children props
         = Throw "useDrawerContext must be used within a Drawer"
      /\ Drawer.DrawerClose None children props
         = Throw "useDrawerContext must be used within a Drawer")
  /\ (forall (children : list Select.SNode) (placeholder : option string)
        (props : Attrs),
      Select.SelectValue None children placeholder props
      = Throw "SelectValue must be used within a Select"
      /\ Select.SelectTrigger None children props
         = Throw "SelectTrigger must be used within a Select").
Proof. repeat split. Qed.

(** ** Conditional rendering *)

(** C3. With the open state of the context false, DrawerContent returns null,
    and SheetPortal and SheetContentInner render nothing, whatever the
    children and props. *)
Theorem closed_renders_nothing
  (dc : Drawer.DrawerContextValue) (sc : Sheet.SheetContextValue)
  (dchildren children : list Node) (dprops props : Attrs) :
  Drawer.open dc = false ->
  Sheet.open sc = false ->
  Drawer.DrawerContent (Some dc) dchildren dprops = Ok RNull
  /\ Sheet.SheetPortal (Some sc) children = Ok RNull
  /\ Sheet.SheetContentInner (Some sc) children props = Ok RNull.
Proof.
  intros Hd Hs.
  unfold Drawer.DrawerContent, Sheet.SheetPortal, Sheet.SheetContentInner.
  cbn. rewrite Hd, Hs. done.
Qed.

Lemma closed_renders_nothing_witness :
  Drawer.DrawerContent (Some closed_drawer) [RText "body"]
    {[ "id" := AStr "drawer" ]} = Ok RNull
  /\ Sheet.SheetPortal (Some closed_sheet) [RText "body"] = Ok RNull
  /\ Sheet.SheetContentInner (Some closed_sheet) [RText "body"]
       {[ "side" := AStr "left" ]} = Ok RNull.
Proof.
  apply (closed_renders_nothing closed_drawer closed_sheet); reflexivity.
Defined.

(** C4. With the open state of the context true, DrawerContent returns a
    portal into document.body around the drawer content, and SheetContent,
    once mounted, returns a portal into document.body as well. *)
Theorem open_renders_portal
  (dc : Drawer.DrawerContextValue) (sc : Sheet.SheetContextValue)
  (dchildren children : list Node) (dprops props : Attrs) :
  Drawer.open dc = true ->
  Sheet.open sc = true ->
  (exists inner,
      Drawer.DrawerContentInner (Some dc) dchildren dprops = Ok inner
      /\ Drawer.DrawerContent (Some dc) dchildren dprops
         = Ok (RPortal (RElem (Component "AnimatePresence") ∅ [inner])
                 DocumentBody))
  /\ (exists body,
         Sheet.SheetContent (Some sc) true children props
         = Ok (RPortal body DocumentBody)).
Proof.
  intros Hd Hs. split.
  - eexists. split; [reflexivity |].
    unfold Drawer.DrawerContent. cbn. rewrite Hd. reflexivity.
  - eexists. unfold Sheet.SheetContent. cbn. rewrite Hs. reflexivity.
Qed.

Lemma open_renders_portal_witness :
  (exists inner,
      Drawer.DrawerContentInner (Some open_drawer) [RText "body"] ∅
      = Ok inner
      /\ Drawer.DrawerContent (Some open_drawer) [RText "body"] ∅
         = Ok (RPortal (RElem (Component "AnimatePresence") ∅ [inner])
                 DocumentBody))
  /\ (exists body,
         Sheet.SheetContent (Some open_sheet) true [RText "body"]
           {[ "side" := AStr "left" ]}
         = Ok (RPortal body DocumentBody)).
Proof.
  apply (open_renders_portal open_drawer open_sheet); reflexivity.
Defined.

(** ** setOpen *)

Lemma Drawer_setOpen_controlled (p : Drawer.DrawerProps)
  (value : SetStateAction) (w0 w : Store) :
  is_Some (Drawer.controlledOpen p) ->
  exists w', Drawer.setOpen (Drawer.provide p w0) value w = Ok w'
             /\ uncontrolledOpen w' = uncontrolledOpen w.
Proof.
  intros [o Ho]. cbn. rewrite Ho. cbn.
  destruct (Drawer.onOpenChange p); eexists; split; reflexivity.
Qed.

Lemma Drawer_setOpen_notifies (p : Drawer.DrawerProps)
  (value : SetStateAction) (w0 w : Store) (cb : Callback) :
  Drawer.onOpenChange p = Some cb ->
  exists w', Drawer.setOpen (Drawer.provide p w0) value w = Ok w'
             /\ trace w'
                = trace w
                  ++ [Invoked cb
                        (ArgBool (resolve value
                                    (Drawer.open (Drawer.provide p w0))))].
Proof.
  intros Hcb. cbn. rewrite Hcb. eexists. split; [reflexivity |].
  cbn. by destruct (negb _).
Qed.

Lemma Sheet_setOpen_controlled (p : Sheet.SheetProps)
  (value : SetStateAction) (w0 w : Store) :
  is_Some (Sheet.controlledOpen p) ->
  exists w', Sheet.setOpen (Sheet.provide p w0) value w = Ok w'
             /\ uncontrolledOpen w' = uncontrolledOpen w.
Proof.
  intros [o Ho]. cbn. rewrite Ho. cbn.
  destruct (Sheet.onOpenChange p); eexists; split; reflexivity.
Qed.

Lemma Sheet_setOpen_notifies (p : Sheet.SheetProps)
  (value : SetStateAction) (w0 w : Store) (cb : Callback) :
  Sheet.onOpenChange p = Some cb ->
  exists w', Sheet.setOpen (Sheet.provide p w0) value w = Ok w'
             /\ trace w'
                = trace w
                  ++ [Invoked cb
                        (ArgBool (resolve value
                                    (Sheet.open (Sheet.provide p w0))))].
Proof.
  intros Hcb. cbn. rewrite Hcb. eexists. split; [reflexivity |].
  cbn. by destruct (negb _).
Qed.

(** C5. setOpen of a Drawer or Sheet, taken from a render on store [w0] and
    called on store [w]: when the open prop is provided, the uncontrolledOpen
    cell is left as it was, for every argument; when onOpenChange is provided,
    in either mode, it is invoked exactly once, with the argument itself or,
    for a function argument, with the function applied to the open value of
    that render. *)
Theorem setOpen_controlled_and_notifies
  (dp : Drawer.DrawerProps) (sp : Sheet.SheetProps)
  (value : SetStateAction) (w0 w : Store) :
  (is_Some (Drawer.controlledOpen dp) ->
   exists w', Drawer.setOpen (Drawer.provide dp w0) value w = Ok w'
              /\ uncontrolledOpen w' = uncontrolledOpen w)
  /\ (forall cb, Drawer.onOpenChange dp = Some cb ->
      exists w', Drawer.setOpen (Drawer.provide dp w0) value w = Ok w'
                 /\ trace w'
                    = trace w
                      ++ [Invoked cb
                            (ArgBool
                               (resolve value
                                  (Drawer.open (Drawer.provide dp w0))))])
  /\ (is_Some (Sheet.controlledOpen sp) ->
      exists w', Sheet.setOpen (Sheet.provide sp w0) value w = Ok w'
                 /\ uncontrolledOpen w' = uncontrolledOpen w)
  /\ (forall cb, Sheet.onOpenChange sp = Some cb ->
      exists w', Sheet.setOpen (Sheet.provide sp w0) value w = Ok w'
                 /\ trace w'
                    = trace w
                      ++ [Invoked cb
                            (ArgBool
                               (resolve value
                                  (Sheet.open (Sheet.provide sp w0))))]).
Proof.
  repeat split.
  - apply Drawer_setOpen_controlled.
  - intros cb. apply Drawer_setOpen_notifies.
  - apply Sheet_setOpen_controlled.
  - intros cb. apply Sheet_setOpen_notifies.
Qed.

Lemma setOpen_controlled_and_notifies_witness :
  (exists w', Drawer.setOpen (Drawer.provide controlled_drawer closed_store)
                (Updater negb) closed_store = Ok w'
              /\ uncontrolledOpen w' = uncontrolledOpen closed_store)
  /\ (exists w', Drawer.setOpen (Drawer.provide controlled_drawer closed_store)
                   (Updater negb) closed_store = Ok w'
                 /\ trace w' = [Invoked "onDrawerChange" (ArgBool false)])
  /\ (exists w', Sheet.setOpen (Sheet.provide controlled_sheet closed_store)
                   (Updater negb) closed_store = Ok w'
                 /\ uncontrolledOpen w' = uncontrolledOpen closed_store)
  /\ (exists w', Sheet.setOpen (Sheet.provide controlled_sheet closed_store)
                   (Updater negb) closed_store = Ok w'
                 /\ trace w' = [Invoked "onSheetChange" (ArgBool true)]).
Proof.
  destruct (setOpen_controlled_and_notifies controlled_drawer
              controlled_sheet (Updater negb) closed_store closed_store)
    as (Hd & Hdn & Hs & Hsn).
  repeat split.
  - apply Hd. by eexists.
  - apply (Hdn "onDrawerChange"). reflexivity.
  - apply Hs. by eexists.
  - apply (Hsn "onSheetChange"). reflexivity.
Defined.


(** ** The event model *)

Lemma lookup_spread {W} (props : Attrs) (k : string) :
  k ∉ ["className"; "style"; "initial"; "animate"; "exit"; "transition"] ->
  (spread props : gmap string (PropValue W)) !! k = PAttr <$> props !! k.
Proof.
  intros Hk. unfold spread. by rewrite lookup_fmap, lookup_erase.
Qed.

Lemma lookup_spread_disabled {W} (props : Attrs) :
  (spread props : gmap string (PropValue W)) !! "disabled"
  = PAttr <$> props !! "disabled".
Proof. apply lookup_spread. apply (bool_decide_unpack _). reflexivity. Qed.

(** Props without a truthy disabled leave the listeners of the element they
    are spread on in place. *)
Lemma enabled_not_prevented {W} (props : Attrs)
  (own : gmap string (PropValue W)) (name : string) (type : ElemType) :
  enabled props = true ->
  own !! "disabled" = None ->
  shouldPreventMouseEvent name type (spread props ∪ own) = false.
Proof.
  unfold enabled, shouldPreventMouseEvent. intros Hen Hown.
  rewrite lookup_union, Hown, lookup_spread_disabled.
  destruct (props !! "disabled") as [a |]; cbn in Hen;
    cbn -[mouse_event interactive].
  - apply negb_true_iff in Hen. rewrite Hen. apply andb_false_r.
  - apply andb_false_r.
Qed.

Lemma disabled_prevented {W} (props : Attrs)
  (own : gmap string (PropValue W)) (tag : string) :
  enabled props = false ->
  interactive (Host tag) = true ->
  shouldPreventMouseEvent "onClick" (Host tag) (spread props ∪ own) = true.
Proof.
  unfold enabled, shouldPreventMouseEvent. intros Hen Hint.
  rewrite lookup_union, lookup_spread_disabled, Hint.
  destruct (props !! "disabled") as [a |]; cbn in Hen; [| done].
  apply negb_false_iff in Hen.
  destruct (own !! "disabled"); cbn -[mouse_event interactive];
    by rewrite Hen.
Qed.

Lemma not_interactive_not_prevented {W} (name tag : string)
  (props : gmap string (PropValue W)) :
  interactive (Host tag) = false ->
  shouldPreventMouseEvent name (Host tag) props = false.
Proof.
  unfold shouldPreventMouseEvent. intros ->.
  by rewrite andb_false_r, andb_false_r.
Qed.

(** A single listener: whether it stops the propagation makes no
    difference. *)
Lemma execute_one {W} `{Traced W} `{Recorded W} (previous : option nat)
  (instance : nat) (l : Listener W) (e : Event) (w : W) :
  execute previous false ((instance, l) :: @nil (Dispatched W)) e w
  = invoke l e w.
Proof.
  cbn. by destruct (invoke l e w) as [w' | msg].
Qed.

(** Two listeners on different elements: the second runs unless the first
    stopped the propagation. *)
Lemma execute_two {W} `{Traced W} `{Recorded W} (i j : nat)
  (first second : Listener W) (e : Event) (w : W) :
  i <> j ->
  execute None false ((i, first) :: (j, second) :: @nil (Dispatched W)) e w
  = (w' ← invoke first e w;
     if stopped w w' then Ok w' else invoke second e w').
Proof.
  intros Hij. cbn. destruct (invoke first e w) as [w' | msg]; cbn; [| done].
  rewrite bool_decide_eq_false_2 by congruence.
  destruct (stopped w w'); cbn; [done |].
  by destruct (invoke second e w').
Qed.

Lemma not_stopped_same {W} `{Recorded W} (w : W) : stopped w w = false.
Proof. unfold stopped. by rewrite drop_all. Qed.

(** An element that has no prop of the name has no listener for it. *)
Lemma getListener_none {W} (name : string) (type : ElemType)
  (props : gmap string (PropValue W)) (children : list (ReactNode W)) :
  props !! name = None ->
  getListener name (RElem type props children) = Ok None.
Proof.
  intros Hno. destruct type; cbn -[shouldPreventMouseEvent]; [| done | done].
  rewrite Hno. by destruct (shouldPreventMouseEvent _ _ _).
Qed.

Lemma getListener_absent {W} (name : string) (type : ElemType) (props : Attrs)
  (own : gmap string (PropValue W)) (children : list (ReactNode W)) :
  own !! name = None ->
  name ∉ ["className"; "style"; "initial"; "animate"; "exit"; "transition"] ->
  props !! name = None ->
  getListener name (RElem type (spread props ∪ own) children) = Ok None.
Proof.
  intros Hown Hname Hno. apply getListener_none.
  by rewrite lookup_union, Hown, (lookup_spread props name Hname), Hno.
Qed.

Lemma accumulate_none {W} (name : string) (instance : nat)
  (targets : list (ReactNode W)) :
  Forall (fun node => getListener name node = Ok None) targets ->
  accumulate name instance targets = Ok [].
Proof.
  intros Hnone. revert instance.
  induction Hnone as [| node targets Hnode _ IH]; intros instance; [done |].
  cbn. by rewrite Hnode, IH.
Qed.

Lemma accumulateTwoPhase_bubble {W} (name : string) (instance : nat)
  (targets : list (ReactNode W)) (listeners : list (Dispatched W)) :
  Forall (fun node => getListener (capture_name name) node = Ok None)
    targets ->
  accumulateTwoPhase name instance targets listeners
  = (ls ← accumulate name instance targets; Ok (listeners ++ ls)).
Proof.
  intros Hnone. revert instance listeners.
  induction Hnone as [| node targets Hnode _ IH]; intros instance listeners.
  - cbn. by rewrite app_nil_r.
  - cbn. rewrite Hnode. cbn.
    destruct (getListener name node) as [l | msg]; cbn; [| done].
    rewrite IH.
    destruct (accumulate name (S instance) targets) as [ls | msg]; cbn;
      [| done].
    destruct l; cbn; by rewrite <- ?app_assoc, ?app_nil_r.
Qed.

(** Where no element on the way has a listener for the capture phase, the
    dispatch is its bubble phase. *)
Lemma dispatch_bubble {W} `{Traced W} `{Recorded W} (name : string)
  (path : list nat) (root : ReactNode W) (targets : list (ReactNode W))
  (e : Event) (w : W) :
  lineage path root [] = Some targets ->
  Forall (fun node => getListener (capture_name name) node = Ok None)
    targets ->
  dispatch name path (Ok root) e w
  = (ls ← accumulate name 0 targets; execute None false ls e w).
Proof.
  intros Hpath Hnone. unfold dispatch. cbn. rewrite Hpath.
  destruct (polyfilled name).
  - rewrite (accumulateTwoPhase_bubble name 0 targets [] Hnone).
    by destruct (accumulate name 0 targets).
  - rewrite (accumulate_none _ 0 targets Hnone). cbn.
    by rewrite not_stopped_same.
Qed.

(** An element that is switched off has no listener for a mouse event. *)
Lemma getListener_prevented {W} (name tag : string)
  (props : gmap string (PropValue W)) (children : list (ReactNode W)) :
  shouldPreventMouseEvent name (Host tag) props = true ->
  getListener name (RElem (Host tag) props children) = Ok None.
Proof. intros Hp. unfold getListener. by rewrite Hp. Qed.

(** An event on a root element that has no listener for the capture
    phase. *)
Lemma fire_bubble {W} `{Traced W} `{Recorded W} (name : string)
  (node : ReactNode W) (e : Event) (w : W) :
  getListener (capture_name name) node = Ok None ->
  fire name node e w
  = (l ← getListener name node;
     match l with
     | Some l => invoke l e w
     | None => Ok w
     end).
Proof.
  intros Hnone. unfold fire.
  rewrite (dispatch_bubble name [] node [node] e w eq_refl)
    by (by constructor).
  cbn -[execute].
  destruct (getListener name node) as [[l |] | msg]; cbn -[execute];
    [| done ..].
  apply execute_one.
Qed.

Lemma fire_closure {W} `{Traced W} `{Recorded W} (name tag : string)
  (props : gmap string (PropValue W)) (children : list (ReactNode W))
  (h : Event -> W -> Result W) (e : Event) (w : W) :
  props !! capture_name name = None ->
  shouldPreventMouseEvent name (Host tag) props = false ->
  props !! name = Some (PHandler h) ->
  fire name (RElem (Host tag) props children) e w = h e w.
Proof.
  intros Hc Hp Hl. rewrite fire_bubble by by apply getListener_none.
  unfold getListener. by rewrite Hp, Hl.
Qed.

Lemma fire_consumer {W} `{Traced W} `{Recorded W} (name tag : string)
  (props : gmap string (PropValue W)) (children : list (ReactNode W))
  (cb : Callback) (e : Event) (w : W) :
  props !! capture_name name = None ->
  shouldPreventMouseEvent name (Host tag) props = false ->
  props !! name = Some (PAttr (ACallback cb)) ->
  fire name (RElem (Host tag) props children) e w
  = Ok (log (Invoked cb (ArgEvent e)) w).
Proof.
  intros Hc Hp Hl. rewrite fire_bubble by by apply getListener_none.
  unfold getListener. by rewrite Hp, Hl.
Qed.

Lemma fire_prevented {W} `{Traced W} `{Recorded W} (name tag : string)
  (props : gmap string (PropValue W)) (children : list (ReactNode W))
  (e : Event) (w : W) :
  props !! capture_name name = None ->
  shouldPreventMouseEvent name (Host tag) props = true ->
  fire name (RElem (Host tag) props children) e w = Ok w.
Proof.
  intros Hc Hp. rewrite fire_bubble by by apply getListener_none.
  by rewrite getListener_prevented.
Qed.

Lemma fire_no_listener {W} `{Traced W} `{Recorded W} (name tag : string)
  (props : gmap string (PropValue W)) (children : list (ReactNode W))
  (e : Event) (w : W) :
  props !! capture_name name = None ->
  props !! name = None ->
  fire name (RElem (Host tag) props children) e w = Ok w.
Proof.
  intros Hc Hl. rewrite fire_bubble by by apply getListener_none.
  by rewrite getListener_none.
Qed.

(** Props that do not carry a name, spread on an element that has no such
    prop of its own. *)
Lemma lookup_absent {W} (name : string) (props : Attrs)
  (own : gmap string (PropValue W)) :
  own !! name = None ->
  name ∉ ["className"; "style"; "initial"; "animate"; "exit"; "transition"] ->
  props !! name = None ->
  (spread props ∪ own) !! name = None.
Proof.
  intros Hown Hname Hno.
  by rewrite lookup_union, Hown, (lookup_spread props name Hname), Hno.
Qed.

Ltac absent H :=
  apply lookup_absent;
  [reflexivity | apply (bool_decide_unpack _); reflexivity | exact H].

Lemma stopped_after_stopPropagation (w : Select.State.t) :
  stopped w (log StopPropagation w) = true.
Proof.
  unfold stopped, recorded, Select.State_recorded, log, Select.State_traced. cbn.
  by rewrite drop_app_length.
Qed.

Lemma not_stopped_by_callback (cb : Callback) (arg : Arg) (w : Store) :
  stopped w (log (Invoked cb arg) w) = false.
Proof.
  unfold stopped, recorded, Store_recorded, log, Store_traced. cbn.
  by rewrite drop_app_length.
Qed.

(** What props leave of the listeners of the element they are spread on:
    a closure of the component, or what the consumer put in its place. *)
Lemma getListener_spread {W} (name tag : string) (props : Attrs)
  (own : gmap string (PropValue W)) (children : list (ReactNode W))
  (l : Listener W) :
  getListener name (RElem (Host tag) (spread props ∪ own) children)
  = Ok (Some l) ->
  (exists h, own !! name = Some (PHandler h) /\ l = Closure h)
  \/ (exists cb, l = Consumer cb)
  \/ (exists a, l = NotCallable a).
Proof.
  unfold getListener.
  destruct (shouldPreventMouseEvent _ _ _); [done |].
  destruct ((spread props ∪ own) !! name) as [[a | h] |] eqn:Hl; [| | done].
  - destruct a as [s | b | cb |]; cbn; [| | | done].
    + destruct (negb (String.eqb s "")); [done |].
      intros [= <-]. right. right. by eexists.
    + destruct b; [done |]. intros [= <-]. right. right. by eexists.
    + intros [= <-]. right. left. by eexists.
  - intros [= <-]. left. exists h. split; [| done].
    apply lookup_union_Some_raw in Hl as [Hl | [_ Hl]]; [| done].
    unfold spread in Hl. rewrite lookup_fmap in Hl.
    by destruct (erase props !! name).
Qed.

(** What every listener of an element keeps, an event on it keeps. *)
Lemma execute_frame {W} `{Traced W} `{Recorded W} (R : W -> W -> Prop)
  (listeners : list (Dispatched W)) (e : Event) :
  (forall w, R w w) ->
  (forall w1 w2 w3, R w1 w2 -> R w2 w3 -> R w1 w3) ->
  (forall i l w1 w2, (i, l) ∈ listeners -> invoke l e w1 = Ok w2 ->
                     R w1 w2) ->
  forall previous halted w w',
    execute previous halted listeners e w = Ok w' -> R w w'.
Proof.
  intros Hrefl Htrans.
  induction listeners as [| [i l] ls IH]; intros Hl previous halted w w'.
  - intros [= <-]. apply Hrefl.
  - cbn. destruct (halted && _); [intros [= <-]; apply Hrefl |].
    destruct (invoke l e w) as [w1 | msg] eqn:Hinvoke; cbn; [| done].
    assert (R w w1) by (eapply Hl; [left | done]).
    intros Hrest. apply (Htrans w w1 w'); [done |].
    revert Hrest. apply IH. intros i' l' w2 w3 Hin. apply (Hl i'). by right.
Qed.

Lemma fire_frame {W} `{Traced W} `{Recorded W} (R : W -> W -> Prop)
  (name : string) (node : ReactNode W) (e : Event) (w w' : W) :
  (forall w, R w w) ->
  (forall w1 w2 w3, R w1 w2 -> R w2 w3 -> R w1 w3) ->
  (forall n l w1 w2,
      n = capture_name name \/ n = name ->
      getListener n node = Ok (Some l) ->
      invoke l e w1 = Ok w2 -> R w1 w2) ->
  fire name node e w = Ok w' -> R w w'.
Proof.
  intros Hrefl Htrans Hl. unfold fire, dispatch. cbn -[getListener].
  destruct (getListener (capture_name name) node) as [c | msg] eqn:Hc;
    [| by destruct (polyfilled name)].
  destruct (polyfilled name); cbn -[getListener].
  - destruct (getListener name node) as [b | msg] eqn:Hb; cbn; [| done].
    apply (execute_frame R _ e Hrefl Htrans).
    intros i l w1 w2 Hin.
    apply elem_of_app in Hin as [Hin | Hin];
      [destruct c as [c |] | destruct b as [b |]];
      try (by apply elem_of_nil in Hin);
      apply list_elem_of_singleton in Hin as [= -> ->].
    + by apply (Hl (capture_name name)); [left |].
    + by apply (Hl name); [right |].
  - match goal with
    | |- context [execute None false ?ls e w] =>
        destruct (execute None false ls e w) as [w1 | msg] eqn:Hcapture
    end; cbn -[getListener]; [| done].
    assert (R w w1) as Hfirst.
    { revert Hcapture. apply (execute_frame R _ e Hrefl Htrans).
      intros i l w2 w3 Hin. destruct c as [c |];
        [| by apply elem_of_nil in Hin].
      apply list_elem_of_singleton in Hin as [= -> ->].
      by apply (Hl (capture_name name)); [left |]. }
    destruct (stopped w w1); [by intros [= <-] |].
    destruct (getListener name node) as [b | msg] eqn:Hb; cbn; [| done].
    intros Hbubble. apply (Htrans w w1 w'); [done |].
    revert Hbubble. apply (execute_frame R _ e Hrefl Htrans).
    intros i l w2 w3 Hin. destruct b as [b |];
      [| by apply elem_of_nil in Hin].
    apply list_elem_of_singleton in Hin as [= -> ->].
    by apply (Hl name); [right |].
Qed.

(** The listener of an element whose props are known. *)
Ltac own_listener tag h :=
  match goal with
  | |- context [getListener ?name (RElem (Host tag) ?own ?cs)] =>
      replace (getListener name (RElem (Host tag) own cs))
        with (Ok (Some (Closure h))) by reflexivity
  end.

Ltac no_listener tag :=
  match goal with
  | |- context [getListener ?name (@RElem ?W (Host tag) ?own ?cs)] =>
      replace (getListener name (@RElem W (Host tag) own cs))
        with (@Ok (option (Listener W)) None) by reflexivity
  end.

(** No element on the way has a listener for the capture phase: those with
    props of their own only, and those on which props without such a
    listener are spread. *)
Ltac capture_free H :=
  repeat (apply List.Forall_cons;
          [first [reflexivity
                 | apply getListener_absent;
                   [reflexivity
                   | apply (bool_decide_unpack _); reflexivity
                   | exact H]] |]);
  apply List.Forall_nil.

(** ** Clicks on triggers and close buttons *)

Lemma DrawerTrigger_click (c : Drawer.DrawerContextValue)
  (children : list Node) (props : Attrs) (w : Store) :
  props !! "onClick" = None ->
  props !! "onClickCapture" = None ->
  enabled props = true ->
  click_on (Drawer.DrawerTrigger (Some c) children props) w
  = Drawer.setOpen c (Value true) w.
Proof.
  intros Hno Hcap Hen. unfold click_on, Drawer.DrawerTrigger. cbn -[fire].
  apply (fire_closure "onClick" "button" _ children
           (fun _ => Drawer.setOpen c (Value true)) click w);
    [absent Hcap | by apply enabled_not_prevented |].
  by rewrite (onClick_kept props _ Hno).
Qed.

Lemma DrawerClose_click (c : Drawer.DrawerContextValue)
  (children : list Node) (props : Attrs) (w : Store) :
  props !! "onClick" = None ->
  props !! "onClickCapture" = None ->
  enabled props = true ->
  click_on (Drawer.DrawerClose (Some c) children props) w
  = Drawer.setOpen c (Value false) w.
Proof.
  intros Hno Hcap Hen. unfold click_on, Drawer.DrawerClose. cbn -[fire].
  apply (fire_closure "onClick" "button" _ children
           (fun _ => Drawer.setOpen c (Value false)) click w);
    [absent Hcap | by apply enabled_not_prevented |].
  by rewrite (onClick_kept props _ Hno).
Qed.

Lemma SheetTrigger_click (context : option Sheet.SheetContextValue)
  (children : list Node) (props : Attrs) (w : Store) :
  props !! "onClick" = None ->
  props !! "onClickCapture" = None ->
  enabled props = true ->
  click_on (snd <$> Sheet.SheetTrigger context children false props) w
  = Sheet.setOpen_or_noop context (Value true) w.
Proof.
  intros Hno Hcap Hen. unfold click_on, Sheet.SheetTrigger. cbn -[fire].
  apply (fire_closure "onClick" "button" _ children
           (fun _ => Sheet.setOpen_or_noop context (Value true)) click w);
    [absent Hcap | by apply enabled_not_prevented |].
  by rewrite (onClick_kept props _ Hno).
Qed.

Lemma SheetClose_click (context : option Sheet.SheetContextValue)
  (children : list Node) (props : Attrs) (w : Store) :
  props !! "onClick" = None ->
  props !! "onClickCapture" = None ->
  enabled props = true ->
  click_on (Sheet.SheetClose context children props) w
  = Sheet.setOpen_or_noop context (Value false) w.
Proof.
  intros Hno Hcap Hen. unfold click_on, Sheet.SheetClose. cbn -[fire].
  apply (fire_closure "onClick" "button" _ children
           (fun _ => Sheet.setOpen_or_noop context (Value false)) click w);
    [absent Hcap | by apply enabled_not_prevented |].
  by rewrite (onClick_kept props _ Hno).
Qed.

(** A trigger or close button that is switched off has no click
    listener. *)
Lemma disabled_button_click {W} `{Traced W} `{Recorded W} (props : Attrs)
  (own : gmap string (PropValue W)) (children : list (ReactNode W)) (w : W) :
  enabled props = false ->
  fire "onClick" (RElem (Host "button") (spread props ∪ own) children) click w
  = Ok w.
Proof.
  intros Hen. unfold fire.
  assert (Hoff : forall name, mouse_event name = true ->
            getListener name
              (RElem (Host "button") (spread props ∪ own) children)
            = Ok None).
  { intros name Hname. apply getListener_prevented.
    pose proof (disabled_prevented props own "button" Hen eq_refl) as Hp.
    unfold shouldPreventMouseEvent in Hp |- *. rewrite Hname.
    by apply andb_prop in Hp as [_ ->]. }
  rewrite (dispatch_bubble "onClick" [] _ [_] click w eq_refl)
    by (constructor; [by apply Hoff | constructor]).
  cbn -[getListener]. by rewrite Hoff.
Qed.

(** What cloneElement leaves of the props SheetTrigger hands to it. *)
Lemma cloned_props {W} (k : string) (v : PropValue W)
  (given child_props : gmap string (PropValue W)) :
  <[k:=v]> (given ∪ child_props) ∪ child_props
  = <[k:=v]> (given ∪ child_props).
Proof.
  apply map_eq. intros i. rewrite lookup_union.
  destruct (<[k:=v]> (given ∪ child_props) !! i) as [x |] eqn:Hi.
  - by destruct (child_props !! i).
  - apply lookup_insert_None in Hi as [Hi _].
    apply lookup_union_None in Hi as [_ ->]. done.
Qed.

(** With [asChild], the listener of the cloned child calls setOpen(true)
    first and the child's own onClick after it, whatever the props are. *)
Lemma SheetTrigger_asChild_click (context : option Sheet.SheetContextValue)
  (tag : string) (child_props : gmap string (PropValue Store))
  (child_children : list Node) (props : Attrs) (w : Store) :
  asChild_prevented tag props child_props = false ->
  props !! "onClickCapture" = None ->
  child_props !! "onClickCapture" = None ->
  click_on (snd <$> Sheet.SheetTrigger context
                      [RElem (Host tag) child_props child_children] true
                      props) w
  = (w ← Sheet.setOpen_or_noop context (Value true) w;
     match child_props !! "onClick" with
     | Some (PAttr a) =>
         if truthy a then call "child.props.onClick" (PAttr a) click w
         else Ok w
     | Some v => call "child.props.onClick" v click w
     | None => Ok w
     end).
Proof.
  intros Hen Hcap Hchild. unfold click_on, Sheet.SheetTrigger. cbn -[fire].
  rewrite cloned_props.
  apply (fire_closure "onClick" tag _ child_children
           (fun e w =>
              w ← Sheet.setOpen_or_noop context (Value true) w;
              match child_props !! "onClick" with
              | Some (PAttr a) =>
                  if truthy a then call "child.props.onClick" (PAttr a) e w
                  else Ok w
              | Some v => call "child.props.onClick" v e w
              | None => Ok w
              end) click w).
  - rewrite lookup_insert_ne by done.
    apply lookup_absent;
      [exact Hchild | apply (bool_decide_unpack _); reflexivity | exact Hcap].
  - unfold shouldPreventMouseEvent. rewrite lookup_insert_ne by done.
    unfold asChild_prevented in Hen. rewrite Hen. apply andb_false_r.
  - apply lookup_insert_eq.
Qed.

(** In uncontrolled mode setOpen with a plain boolean stores it. *)
Lemma Drawer_setOpen_uncontrolled (p : Drawer.DrawerProps) (b : bool)
  (w0 w : Store) :
  Drawer.controlledOpen p = None ->
  exists w', Drawer.setOpen (Drawer.provide p w0) (Value b) w = Ok w'
             /\ uncontrolledOpen w' = b.
Proof.
  intros Hu. cbn. rewrite Hu. cbn.
  destruct (Drawer.onOpenChange p); eexists; split; reflexivity.
Qed.

Lemma Sheet_setOpen_uncontrolled (p : Sheet.SheetProps) (b : bool)
  (w0 w : Store) :
  Sheet.controlledOpen p = None ->
  exists w', Sheet.setOpen (Sheet.provide p w0) (Value b) w = Ok w'
             /\ uncontrolledOpen w' = b.
Proof.
  intros Hu. cbn. rewrite Hu. cbn.
  destruct (Sheet.onOpenChange p); eexists; split; reflexivity.
Qed.

(** The claim C7 makes of every click on a DrawerTrigger does not hold of a
    DrawerTrigger that is given an onClick: the click invokes that callback
    only, setOpen is not called and the uncontrolled drawer stays closed.
    Nor does it hold of a DrawerTrigger that is given disabled: its button
    has no click listener and the drawer stays closed. *)
Lemma DrawerTrigger_onClick_prop_wins :
  Drawer_click_trigger uncontrolled_drawer [RText "Open"] tracked closed_store
  = Ok {| uncontrolledOpen := false;
          trace := [Invoked "track" (ArgEvent click)] |}
  /\ Drawer.setOpen (Drawer.provide uncontrolled_drawer closed_store)
       (Value true) closed_store
     = Ok {| uncontrolledOpen := true; trace := [] |}
  /\ Drawer_click_trigger uncontrolled_drawer [RText "Open"] switched_off
       closed_store
     = Ok closed_store.
Proof. repeat split; reflexivity. Qed.

Lemma Drawer_click_idempotent (p : Drawer.DrawerProps) (b : bool)
  (children : list Node) (props : Attrs) (w : Store) :
  Drawer.controlledOpen p = None ->
  props !! "onClick" = None ->
  props !! "onClickCapture" = None ->
  enabled props = true ->
  let click_it := if b then Drawer_click_trigger p children props
                  else Drawer_click_close p children props in
  exists w1 w2,
    click_it w = Ok w1 /\ uncontrolledOpen w1 = b
    /\ click_it w1 = Ok w2 /\ uncontrolledOpen w2 = uncontrolledOpen w1.
Proof.
  intros Hu Hno Hcap Hen click_it.
  assert (Hstep : forall w, exists w', click_it w = Ok w'
                                       /\ uncontrolledOpen w' = b).
  { intros w'. subst click_it.
    destruct b; unfold Drawer_click_trigger, Drawer_click_close,
      Drawer.Drawer.
    - rewrite DrawerTrigger_click by done.
      by apply Drawer_setOpen_uncontrolled.
    - rewrite DrawerClose_click by done.
      by apply Drawer_setOpen_uncontrolled. }
  destruct (Hstep w) as (w1 & H1 & Hb1).
  destruct (Hstep w1) as (w2 & H2 & Hb2).
  exists w1, w2. repeat split; [done | done | done | congruence].
Qed.

Lemma Sheet_click_idempotent (p : Sheet.SheetProps) (b : bool)
  (children : list Node) (props : Attrs) (w : Store) :
  Sheet.controlledOpen p = None ->
  props !! "onClick" = None ->
  props !! "onClickCapture" = None ->
  enabled props = true ->
  let click_it := if b then Sheet_click_trigger p children false props
                  else Sheet_click_close p children props in
  exists w1 w2,
    click_it w = Ok w1 /\ uncontrolledOpen w1 = b
    /\ click_it w1 = Ok w2 /\ uncontrolledOpen w2 = uncontrolledOpen w1.
Proof.
  intros Hu Hno Hcap Hen click_it.
  assert (Hstep : forall w, exists w', click_it w = Ok w'
                                       /\ uncontrolledOpen w' = b).
  { intros w'. subst click_it.
    destruct b; unfold Sheet_click_trigger, Sheet_click_close, Sheet.Sheet.
    - rewrite SheetTrigger_click by done.
      by apply Sheet_setOpen_uncontrolled.
    - rewrite SheetClose_click by done.
      by apply Sheet_setOpen_uncontrolled. }
  destruct (Hstep w) as (w1 & H1 & Hb1).
  destruct (Hstep w1) as (w2 & H2 & Hb2).
  exists w1, w2. repeat split; [done | done | done | congruence].
Qed.

(** The child's own onClick, when it is absent, falsy or a callback of the
    consumer, leaves the open cell as setOpen(true) set it. *)
Lemma Sheet_asChild_click_opens (p : Sheet.SheetProps) (tag : string)
  (child_props : gmap string (PropValue Store)) (child_children : list Node)
  (props : Attrs) (w : Store) :
  Sheet.controlledOpen p = None ->
  asChild_prevented tag props child_props = false ->
  props !! "onClickCapture" = None ->
  child_props !! "onClickCapture" = None ->
  plain_onClick (child_props !! "onClick") = true ->
  exists w',
    Sheet_click_trigger p [RElem (Host tag) child_props child_children] true
      props w = Ok w'
    /\ uncontrolledOpen w' = true.
Proof.
  intros Hu Hen Hcap Hchild Hplain.
  unfold Sheet_click_trigger, Sheet.Sheet.
  rewrite SheetTrigger_asChild_click by done.
  destruct (Sheet_setOpen_uncontrolled p true w w Hu) as (w1 & H1 & Ho1).
  cbn [Sheet.setOpen_or_noop]. rewrite H1. cbn [mbind Result_bind].
  destruct (child_props !! "onClick") as [[a | h] |]; cbn in Hplain;
    [| done | by exists w1].
  destruct a as [s | b | cb |]; cbn in Hplain |- *.
  - apply negb_true_iff in Hplain. rewrite Hplain. by exists w1.
  - apply negb_true_iff in Hplain. rewrite Hplain. by exists w1.
  - eexists. split; [reflexivity | done].
  - by exists w1.
Qed.

(** C7, amended. When the component is given no click listener of its own
    (no onClick, which would replace the listener of the component, and no
    onClickCapture, which would run before it and could stop the event) and
    no truthy disabled prop, a click on DrawerTrigger or SheetTrigger calls
    setOpen(true) and a click on DrawerClose or SheetClose calls
    setOpen(false), whatever the current state.  A SheetTrigger with asChild
    around a DOM element that is not switched off and has no onClickCapture
    calls setOpen(true) and then the child's own onClick, whatever onClick
    the trigger and the child are given.  In uncontrolled mode each such
    click is idempotent: after the first one the open state has the value
    set, and a second one leaves it unchanged (with asChild: when the child's
    own onClick, if any, is falsy or a callback of the consumer). *)
Theorem clicks_set_open
  (dc : Drawer.DrawerContextValue) (context : option Sheet.SheetContextValue)
  (dp : Drawer.DrawerProps) (sp : Sheet.SheetProps)
  (children : list Node) (props : Attrs) (w : Store) :
  props !! "onClick" = None ->
  props !! "onClickCapture" = None ->
  enabled props = true ->
  (click_on (Drawer.DrawerTrigger (Some dc) children props) w
   = Drawer.setOpen dc (Value true) w
   /\ click_on (Drawer.DrawerClose (Some dc) children props) w
      = Drawer.setOpen dc (Value false) w
   /\ click_on (snd <$> Sheet.SheetTrigger context children false props) w
      = Sheet.setOpen_or_noop context (Value true) w
   /\ click_on (Sheet.SheetClose context children props) w
      = Sheet.setOpen_or_noop context (Value false) w)
  /\ (forall tag child_props child_children any_props,
        asChild_prevented tag any_props child_props = false ->
        any_props !! "onClickCapture" = None ->
        child_props !! "onClickCapture" = None ->
        click_on (snd <$> Sheet.SheetTrigger context
                            [RElem (Host tag) child_props child_children]
                            true any_props) w
        = (w ← Sheet.setOpen_or_noop context (Value true) w;
           match child_props !! "onClick" with
           | Some (PAttr a) =>
               if truthy a then call "child.props.onClick" (PAttr a) click w
               else Ok w
           | Some v => call "child.props.onClick" v click w
           | None => Ok w
           end))
  /\ (Drawer.controlledOpen dp = None ->
      (exists w1 w2,
          Drawer_click_trigger dp children props w = Ok w1
          /\ uncontrolledOpen w1 = true
          /\ Drawer_click_trigger dp children props w1 = Ok w2
          /\ uncontrolledOpen w2 = uncontrolledOpen w1)
      /\ (exists w1 w2,
             Drawer_click_close dp children props w = Ok w1
             /\ uncontrolledOpen w1 = false
             /\ Drawer_click_close dp children props w1 = Ok w2
             /\ uncontrolledOpen w2 = uncontrolledOpen w1))
  /\ (Sheet.controlledOpen sp = None ->
      (exists w1 w2,
          Sheet_click_trigger sp children false props w = Ok w1
          /\ uncontrolledOpen w1 = true
          /\ Sheet_click_trigger sp children false props w1 = Ok w2
          /\ uncontrolledOpen w2 = uncontrolledOpen w1)
      /\ (exists w1 w2,
             Sheet_click_close sp children props w = Ok w1
             /\ uncontrolledOpen w1 = false
             /\ Sheet_click_close sp children props w1 = Ok w2
             /\ uncontrolledOpen w2 = uncontrolledOpen w1)
      /\ (forall tag child_props child_children any_props,
             asChild_prevented tag any_props child_props = false ->
             any_props !! "onClickCapture" = None ->
             child_props !! "onClickCapture" = None ->
             plain_onClick (child_props !! "onClick") = true ->
             exists w1 w2,
               Sheet_click_trigger sp
                 [RElem (Host tag) child_props child_children] true any_props
                 w = Ok w1
               /\ uncontrolledOpen w1 = true
               /\ Sheet_click_trigger sp
                    [RElem (Host tag) child_props child_children] true
                    any_props w1 = Ok w2
               /\ uncontrolledOpen w2 = uncontrolledOpen w1)).
Proof.
  intros Hno Hcap Hen. split; [| split; [| split]].
  - auto using DrawerTrigger_click, DrawerClose_click, SheetTrigger_click,
      SheetClose_click.
  - intros tag child_props child_children any_props Hchild Hany Hown.
    by apply SheetTrigger_asChild_click.
  - intros Hu. split.
    + exact (Drawer_click_idempotent dp true children props w Hu Hno Hcap Hen).
    + exact (Drawer_click_idempotent dp false children props w Hu Hno Hcap Hen).
  - intros Hu. split; [| split].
    + exact (Sheet_click_idempotent sp true children props w Hu Hno Hcap Hen).
    + exact (Sheet_click_idempotent sp false children props w Hu Hno Hcap Hen).
    + intros tag child_props child_children any_props Hchild Hany Hown
        Hplain.
      destruct (Sheet_asChild_click_opens sp tag child_props child_children
                  any_props w Hu Hchild Hany Hown Hplain) as (w1 & H1 & Ho1).
      destruct (Sheet_asChild_click_opens sp tag child_props child_children
                  any_props w1 Hu Hchild Hany Hown Hplain)
        as (w2 & H2 & Ho2).
      exists w1, w2. repeat split; [done | done | done | congruence].
Qed.

Lemma clicks_set_open_witness :
  (exists w1 w2,
      Drawer_click_trigger uncontrolled_drawer [RText "Open"] ∅ closed_store
      = Ok w1
      /\ uncontrolledOpen w1 = true
      /\ Drawer_click_trigger uncontrolled_drawer [RText "Open"] ∅ w1 = Ok w2
      /\ uncontrolledOpen w2 = uncontrolledOpen w1)
  /\ (exists w1 w2,
         Sheet_click_close uncontrolled_sheet [RText "Open"] ∅ closed_store
         = Ok w1
         /\ uncontrolledOpen w1 = false
         /\ Sheet_click_close uncontrolled_sheet [RText "Open"] ∅ w1 = Ok w2
         /\ uncontrolledOpen w2 = uncontrolledOpen w1)
  /\ (exists w1 w2,
         Sheet_click_trigger uncontrolled_sheet
           [RElem (Host "a") link_props [RText "Menu"]] true tracked
           closed_store = Ok w1
         /\ uncontrolledOpen w1 = true
         /\ Sheet_click_trigger uncontrolled_sheet
              [RElem (Host "a") link_props [RText "Menu"]] true tracked w1
            = Ok w2
         /\ uncontrolledOpen w2 = uncontrolledOpen w1).
Proof.
  destruct (clicks_set_open open_drawer None uncontrolled_drawer
              uncontrolled_sheet [RText "Open"] ∅ closed_store)
    as (_ & _ & Hd & Hs); [reflexivity | reflexivity | reflexivity |].
  destruct (Hd eq_refl) as (Htrigger & _).
  destruct (Hs eq_refl) as (_ & Hclose & HasChild).
  split; [exact Htrigger | split; [exact Hclose |]].
  exact (HasChild "a" link_props [RText "Menu"] tracked eq_refl eq_refl
           eq_refl eq_refl).
Defined.

(** ** Clicks on the trigger of a Select *)

Lemma SelectTrigger_click (c : Select.SelectContextType)
  (children : list Select.SNode) (props : Attrs) (w : Select.State.t) :
  props !! "onClick" = None ->
  props !! "onClickCapture" = None ->
  enabled props = true ->
  click_on (Select.SelectTrigger (Some c) children props) w
  = Select.setOpen c (negb (Select.open c)) w.
Proof.
  intros Hno Hcap Hen. unfold click_on, Select.SelectTrigger. cbn -[fire].
  apply (fire_closure "onClick" "button" _ _
           (fun _ => Select.setOpen c (negb (Select.open c))) click w);
    [absent Hcap | by apply enabled_not_prevented |].
  by rewrite (onClick_kept props _ Hno).
Qed.

Lemma handleOpenChange_uncontrolled (p : Select.Props.t) (newOpen : bool)
  (w : Select.State.t) :
  Select.Props.open p = None ->
  Select.Props.disabled p <> Some true ->
  exists w', Select.handleOpenChange p newOpen w = Ok w'
             /\ Select.State.isOpen w' = newOpen.
Proof.
  intros Hu Hen. unfold Select.handleOpenChange.
  destruct (Select.Props.disabled p) as [[] |]; [done | | ];
    cbn; rewrite Hu; cbn;
    destruct (Select.Props.onOpenChange p); eexists; split; reflexivity.
Qed.

Lemma commit_isOpen (before after : Select.State.t) :
  Select.State.isOpen (Select.commit before after)
  = Select.State.isOpen after.
Proof.
  unfold Select.commit, Select.effect_query.
  destruct (Bool.eqb _ _); [done |]. by destruct (negb _).
Qed.

Lemma Select_click_inverts (p : Select.Props.t)
  (children : list Select.SNode) (props : Attrs) (w : Select.State.t) :
  Select.Props.open p = None ->
  Select.Props.disabled p <> Some true ->
  props !! "onClick" = None ->
  props !! "onClickCapture" = None ->
  enabled props = true ->
  exists w', Select_click_trigger p children props w = Ok w'
             /\ Select.State.isOpen w' = negb (Select.State.isOpen w).
Proof.
  intros Hu Hen Hno Hcap Hon. unfold Select_click_trigger, Select.Select.
  rewrite SelectTrigger_click by done. cbn.
  destruct (handleOpenChange_uncontrolled p
              (negb (Select.State.isOpen w)) w Hu Hen) as (w' & -> & Hw').
  cbn. eexists. split; [reflexivity |]. by rewrite commit_isOpen.
Qed.

Lemma commit_same (w : Select.State.t) : Select.commit w w = w.
Proof. unfold Select.commit. by rewrite Bool.eqb_reflx. Qed.

(** Without an onClick among the props spread on it, the element keeps a
    listener that is accepted. *)
Lemma getListener_kept {W} (tag : string) (props : Attrs)
  (own : gmap string (PropValue W)) (children : list (ReactNode W))
  (h : Event -> W -> Result W) :
  props !! "onClick" = None ->
  own !! "onClick" = Some (PHandler h) ->
  exists l,
    getListener "onClick" (RElem (Host tag) (spread props ∪ own) children)
    = Ok l.
Proof.
  intros Hno Hown. unfold getListener.
  destruct (shouldPreventMouseEvent _ _ _); [by eexists |].
  rewrite (onClick_kept props _ Hno), Hown. by eexists.
Qed.

(** A click on the search input of an open Select: the input stops the
    propagation, so the listener of the button does not run. *)
Lemma Select_click_input_stops (p : Select.Props.t)
  (children : list Select.SNode) (props : Attrs) (w : Select.State.t) :
  props !! "onClick" = None ->
  props !! "onClickCapture" = None ->
  Select.State.isOpen w = true ->
  Select_click_input p children props w = Ok (log StopPropagation w).
Proof.
  intros Hno Hcap Ho.
  unfold Select_click_input, click_at, Select.Select, Select.SelectTrigger.
  cbn -[dispatch]. rewrite Ho. cbn -[dispatch].
  erewrite dispatch_bubble; [| reflexivity | capture_free Hcap].
  cbn -[getListener execute].
  match goal with
  | |- context [getListener "onClick" (RElem (Host "button") (_ ∪ ?own) ?cs)] =>
      destruct (getListener_kept "button" props own cs
                  (fun _ => Select.handleOpenChange p (negb true)) Hno
                  eq_refl) as [l ->]
  end.
  match goal with
  | |- context [getListener "onClick" (RElem (Host "input") ?own ?cs)] =>
      replace (getListener "onClick" (RElem (Host "input") own cs))
        with (Ok (Some (Closure (fun (_ : Event) (w0 : Select.State.t) =>
                                   Ok (log StopPropagation w0)))))
        by reflexivity
  end.
  cbn -[execute stopped]. destruct l as [l |]; cbn -[execute stopped].
  - rewrite execute_two by done. cbn -[stopped].
    rewrite stopped_after_stopPropagation. cbn.
    unfold Select.commit. cbn. by rewrite Bool.eqb_reflx.
  - rewrite execute_one. cbn.
    unfold Select.commit. cbn. by rewrite Bool.eqb_reflx.
Qed.

(** The claim C6 makes of every click on a SelectTrigger does not hold of a
    SelectTrigger that is given an onClick: in an uncontrolled Select that is
    not disabled, the click invokes that callback only and the Select stays
    closed.  Nor does it hold of a trigger that is given disabled, whose
    button has no click listener, nor of a click on the search input the
    trigger shows while the Select is open, which stops the propagation:
    the Select stays as it is. *)
Lemma SelectTrigger_onClick_prop_wins :
  Select.Props.open uncontrolled_select = None
  /\ Select.Props.disabled uncontrolled_select <> Some true
  /\ Select.State.isOpen (Select.mount uncontrolled_select) = false
  /\ (exists w',
         Select_click_trigger uncontrolled_select [] tracked
           (Select.mount uncontrolled_select) = Ok w'
         /\ Select.State.isOpen w' = false
         /\ Select.State.trace w' = [Invoked "track" (ArgEvent click)])
  /\ Select_click_trigger uncontrolled_select [] switched_off
       (Select.mount uncontrolled_select)
     = Ok (Select.mount uncontrolled_select)
  /\ (exists w',
         Select_click_input uncontrolled_select [] ∅ open_select_store
         = Ok w'
         /\ Select.State.isOpen w' = true).
Proof.
  split; [done |]. split; [done |]. split; [done |].
  split; [eexists; repeat split |]. split; [reflexivity |].
  eexists. split; reflexivity.
Qed.

(** C6, amended. When SelectTrigger is given no click listener of its own
    (no onClick, which would replace the listener of the component, and no
    onClickCapture, which would run before it and could stop the event) and
    no truthy disabled prop, a click on its button calls setOpen with the
    negation of the current open state; a click on the search input it shows
    while the Select is open does not reach the button.  Hence for an
    uncontrolled Select that is not disabled one click on the button inverts
    the open state and two consecutive clicks on it restore it. *)
Theorem select_trigger_toggles
  (c : Select.SelectContextType) (p : Select.Props.t)
  (children : list Select.SNode) (props : Attrs) (w : Select.State.t) :
  props !! "onClick" = None ->
  props !! "onClickCapture" = None ->
  enabled props = true ->
  click_on (Select.SelectTrigger (Some c) children props) w
  = Select.setOpen c (negb (Select.open c)) w
  /\ (Select.State.isOpen w = true ->
      Select_click_input p children props w = Ok (log StopPropagation w))
  /\ (Select.Props.open p = None ->
      Select.Props.disabled p <> Some true ->
      exists w1 w2,
        Select_click_trigger p children props w = Ok w1
        /\ Select.State.isOpen w1 = negb (Select.State.isOpen w)
        /\ Select_click_trigger p children props w1 = Ok w2
        /\ Select.State.isOpen w2 = Select.State.isOpen w).
Proof.
  intros Hno Hcap Hon. split; [by apply SelectTrigger_click |].
  split; [by apply Select_click_input_stops |].
  intros Hu Hen.
  destruct (Select_click_inverts p children props w Hu Hen Hno Hcap Hon)
    as (w1 & H1 & Ho1).
  destruct (Select_click_inverts p children props w1 Hu Hen Hno Hcap Hon)
    as (w2 & H2 & Ho2).
  exists w1, w2. repeat split; [done | done | done |].
  rewrite Ho2, Ho1. apply negb_involutive.
Qed.

Lemma select_trigger_toggles_witness :
  (Select_click_input uncontrolled_select [RText "Pick"] ∅ open_select_store
   = Ok {| Select.State.selectedValue := "pear"; Select.State.isOpen := true;
           Select.State.searchQuery := "pe";
           Select.State.trace := [StopPropagation] |})
  /\ exists w1 w2,
       Select_click_trigger uncontrolled_select [RText "Pick"] ∅
         (Select.mount uncontrolled_select) = Ok w1
       /\ Select.State.isOpen w1
          = negb (Select.State.isOpen (Select.mount uncontrolled_select))
       /\ Select_click_trigger uncontrolled_select [RText "Pick"] ∅ w1 = Ok w2
       /\ Select.State.isOpen w2
          = Select.State.isOpen (Select.mount uncontrolled_select).
Proof.
  split.
  - exact (proj1 (proj2 (select_trigger_toggles
                           (Select.provide uncontrolled_select
                              open_select_store)
                           uncontrolled_select [RText "Pick"] ∅
                           open_select_store eq_refl eq_refl eq_refl))
             eq_refl).
  - apply (select_trigger_toggles
             (Select.provide uncontrolled_select
                (Select.mount uncontrolled_select))
             uncontrolled_select [RText "Pick"] ∅
             (Select.mount uncontrolled_select));
      [reflexivity | reflexivity | reflexivity | reflexivity |].
    discriminate.
Defined.
(** ** Errors thrown inside a Sheet *)

(** C1. The claim that errors are thrown for use outside the contextual
    parent only fails on SheetContent: rendered below a Sheet that is open,
    and mounted, its backdrop has as click listener a local setOpen that
    throws, so a click on the backdrop throws "Function not implemented.",
    for any children, props and store. *)
Theorem SheetContent_backdrop_click_throws
  (sc : Sheet.SheetContextValue) (children : list Node) (props : Attrs)
  (w : Store) :
  Sheet.open sc = true ->
  click_at SheetContent_backdrop
    (Sheet.SheetContent (Some sc) true children props) w
  = Throw "Function not implemented.".
Proof.
  intros Ho. unfold click_at, Sheet.SheetContent.
  cbn -[dispatch]. rewrite Ho. cbn -[dispatch].
  erewrite dispatch_bubble; [| reflexivity | capture_free I].
  reflexivity.
Qed.

Lemma SheetContent_backdrop_click_throws_witness :
  Sheet.Sheet
    {| Sheet.defaultOpen := Some true; Sheet.controlledOpen := None;
       Sheet.onOpenChange := None |}
    (fun context =>
       click_at SheetContent_backdrop
         (Sheet.SheetContent context true [RText "body"] ∅) open_store)
    open_store
  = Throw "Function not implemented.".
Proof.
  apply (SheetContent_backdrop_click_throws _ [RText "body"] ∅ open_store).
  reflexivity.
Defined.

(** The backdrops of SheetContentInner and of DrawerContent call the setOpen
    of the context instead. *)
Lemma SheetContentInner_backdrop_click (sc : Sheet.SheetContextValue)
  (children : list Node) (props : Attrs) (w : Store) :
  Sheet.open sc = true ->
  click_at [0] (Sheet.SheetContentInner (Some sc) children props) w
  = Sheet.setOpen sc (Value false) w.
Proof.
  intros Ho. unfold click_at, Sheet.SheetContentInner.
  cbn -[dispatch]. rewrite Ho. cbn -[dispatch].
  erewrite dispatch_bubble; [| reflexivity | capture_free I].
  cbn -[getListener execute].
  match goal with
  | |- context [getListener "onClick" (RElem (Host "motion.div") ?own ?cs)] =>
      replace (getListener "onClick" (RElem (Host "motion.div") own cs))
        with (Ok (Some (Closure (fun (_ : Event) =>
                                   Sheet.setOpen sc (Value false)))))
        by reflexivity
  end.
  cbn -[execute]. apply execute_one.
Qed.

Lemma DrawerContent_backdrop_click (dc : Drawer.DrawerContextValue)
  (children : list Node) (props : Attrs) (w : Store) :
  Drawer.open dc = true ->
  click_at [0; 0; 0] (Drawer.DrawerContent (Some dc) children props) w
  = Drawer.setOpen dc (Value false) w.
Proof.
  intros Ho. unfold click_at, Drawer.DrawerContent.
  cbn -[dispatch]. rewrite Ho. cbn -[dispatch].
  erewrite dispatch_bubble; [| reflexivity | capture_free I].
  cbn -[getListener execute].
  match goal with
  | |- context [getListener "onClick" (RElem (Host "motion.div") ?own ?cs)] =>
      replace (getListener "onClick" (RElem (Host "motion.div") own cs))
        with (Ok (Some (Closure (fun (_ : Event) =>
                                   Drawer.setOpen dc (Value false)))))
        by reflexivity
  end.
  cbn -[execute]. apply execute_one.
Qed.

(** With asChild, SheetTrigger throws unless its children are one element,
    with or without a Sheet above it; the branch that reports the mistake
    with console.error is never reached. *)
Lemma SheetTrigger_asChild_throws (context : option Sheet.SheetContextValue)
  (children : list Node) (props : Attrs) :
  (forall type child_props child_children,
      children <> [RElem type child_props child_children]) ->
  Sheet.SheetTrigger context children true props
  = Throw "React.Children.only expected to receive a single React element child.".
Proof.
  intros Hne. unfold Sheet.SheetTrigger, Children_only.
  destruct children as [| [] []]; try reflexivity.
  by edestruct Hne.
Qed.

Lemma SheetTrigger_never_reports (context : option Sheet.SheetContextValue)
  (children : list Node) (asChild : bool) (props : Attrs)
  (node : Node) (console : list string) :
  Sheet.SheetTrigger context children asChild props = Ok (console, node) ->
  console = [].
Proof.
  unfold Sheet.SheetTrigger, Children_only.
  destruct asChild; [| by intros [= <- _]].
  destruct children as [| [] []]; cbn; try done.
  by intros [= <- _].
Qed.

(** ** Sheet parts outside a Sheet *)

(** C8. A SheetTrigger rendered with no Sheet above it does throw when it
    has asChild and its children are a text rather than one element. *)
Theorem SheetTrigger_outside_Sheet_throws :
  Sheet.SheetTrigger None [RText "Open"] true ∅
  = Throw "React.Children.only expected to receive a single React element child.".
Proof. reflexivity. Qed.

Lemma lookup_restProps_onClick (props : Attrs) :
  Sheet.restProps props !! "onClick" = props !! "onClick".
Proof. unfold Sheet.restProps. by rewrite !lookup_delete_ne. Qed.

Lemma lookup_restProps_onClickCapture (props : Attrs) :
  Sheet.restProps props !! "onClickCapture" = props !! "onClickCapture".
Proof. unfold Sheet.restProps. by rewrite !lookup_delete_ne. Qed.

(** A click on an element whose own listener is a no-op does nothing, when
    the props have no listener for the capture phase; when a callback of the
    consumer replaced the listener, the click invokes it and leaves the open
    cell as it is. *)
Lemma click_noop_listener (tag : string) (props : Attrs)
  (own : gmap string (PropValue Store)) (children : list Node) (w : Store) :
  own !! "onClick" = Some (PHandler (fun _ w => Ok w)) ->
  own !! "onClickCapture" = None ->
  props !! "onClickCapture" = None ->
  (props !! "onClick" = None ->
   fire "onClick" (RElem (Host tag) (spread props ∪ own) children) click w
   = Ok w)
  /\ (forall cb, props !! "onClick" = Some (ACallback cb) ->
      shouldPreventMouseEvent "onClick" (Host tag) (spread props ∪ own)
      = false ->
      fire "onClick" (RElem (Host tag) (spread props ∪ own) children) click w
      = Ok {| uncontrolledOpen := uncontrolledOpen w;
              trace := trace w ++ [Invoked cb (ArgEvent click)] |}).
Proof.
  intros Hown Hown_cap Hcap.
  assert (Hnone : (spread props ∪ own : gmap string (PropValue Store))
                    !! capture_name "onClick" = None).
  { apply lookup_absent; [done | | done].
    apply (bool_decide_unpack _). reflexivity. }
  split.
  - intros Hp. rewrite fire_bubble by by apply getListener_none.
    unfold getListener.
    destruct (shouldPreventMouseEvent _ _ _); [done |].
    by rewrite (onClick_kept props own Hp), Hown.
  - intros cb Hp Hen.
    rewrite (fire_consumer "onClick" tag _ children cb click w Hnone Hen);
      [done |].
    by rewrite (onClick_replaced props own _ Hp).
Qed.

(** Outside a Sheet the other parts fall back to open = false and a setOpen
    that does nothing: SheetPortal and SheetContentInner render nothing;
    SheetClose, SheetOverlay and SheetTrigger without asChild render, and a
    click on any of them leaves the store as it is when no click listener
    (onClick, onClickCapture) was given in the props. *)
Lemma Sheet_parts_fall_back (children : list Node) (props : Attrs)
  (w : Store) :
  props !! "onClick" = None ->
  props !! "onClickCapture" = None ->
  Sheet.SheetPortal None children = Ok RNull
  /\ Sheet.SheetContentInner None children props = Ok RNull
  /\ click_on (Sheet.SheetClose None children props) w = Ok w
  /\ click_on (Sheet.SheetOverlay None children props) w = Ok w
  /\ click_on (snd <$> Sheet.SheetTrigger None children false props) w
     = Ok w.
Proof.
  intros Hp Hcap. split; [done |]. split; [done |]. repeat split.
  - by apply click_noop_listener.
  - apply (click_noop_listener "motion.div" (Sheet.restProps props));
      [done | done | by rewrite lookup_restProps_onClickCapture |].
    by rewrite lookup_restProps_onClick.
  - by apply click_noop_listener.
Qed.

(** The same with an onClick callback in the props, no onClickCapture and
    no truthy disabled: the click invokes the callback and the open cell is
    as before. *)
Lemma Sheet_parts_fall_back_callback (children : list Node) (props : Attrs)
  (cb : Callback) (w : Store) :
  props !! "onClick" = Some (ACallback cb) ->
  props !! "onClickCapture" = None ->
  enabled props = true ->
  let w' := {| uncontrolledOpen := uncontrolledOpen w;
               trace := trace w ++ [Invoked cb (ArgEvent click)] |} in
  click_on (Sheet.SheetClose None children props) w = Ok w'
  /\ click_on (Sheet.SheetOverlay None children props) w = Ok w'
  /\ click_on (snd <$> Sheet.SheetTrigger None children false props) w
     = Ok w'.
Proof.
  intros Hp Hcap Hen w'. repeat split.
  - apply click_noop_listener; [done | done | done | done |].
    by apply enabled_not_prevented.
  - apply (click_noop_listener "motion.div" (Sheet.restProps props));
      [done | done | by rewrite lookup_restProps_onClickCapture
      | by rewrite lookup_restProps_onClick |].
    by apply not_interactive_not_prevented.
  - apply click_noop_listener; [done | done | done | done |].
    by apply enabled_not_prevented.
Qed.

(** ** The image ring *)

Section Ring_properties.
Import Ring.
Context {num : Type} `{Number num}.

(** C9. A drag with pointer delta (dx, dy) sets rotationY to
    rotationY + dx * 0.5 and rotationX to rotationX - dy * 0.5 and leaves
    hoveredIndex, the only other state, as it is; when the draggable prop is
    false, handleDrag returns the state unchanged. *)
Theorem handleDrag_updates_rotations
  (p : ThreeDImageRingProps num) (delta : Delta num) (s : State num) :
  (draggable p <> Some false ->
   handleDrag p delta s
   = {| rotationX := sub (rotationX s) (mul (y delta) half);
        rotationY := add (rotationY s) (mul (x delta) half);
        hoveredIndex := hoveredIndex s |})
  /\ (draggable p = Some false -> handleDrag p delta s = s).
Proof.
  unfold handleDrag. split.
  - intros Hd. by destruct (draggable p) as [[] |].
  - by intros ->.
Qed.

Lemma imagePositions_lookup (images : list string) (imageDistance : num)
  (i : nat) :
  i < length images ->
  imagePositions images imageDistance !! i
  = Some {| rotateY := angle i (length images);
            translateZ := imageDistance |}.
Proof.
  intros Hi. unfold imagePositions. rewrite list_lookup_imap.
  destruct (lookup_lt_is_Some_2 images i Hi) as [image ->]. done.
Qed.

Lemma views_from_lookup (p : ThreeDImageRingProps num) (s : State num)
  (positions : list (Position num)) (images : list string) (index : nat) :
  (forall k, k < length images -> is_Some (positions !! (index + k))) ->
  exists views,
    views_from p s positions index images = Ok views
    /\ forall k image, images !! k = Some image ->
       exists v, views !! k = Some v
                 /\ view p s positions (index + k) image = Ok v.
Proof.
  revert index. induction images as [| image rest IH]; intros index Hpos.
  - exists []. split; [done |]. intros k image Hk. done.
  - destruct (Hpos 0) as [position Hposition]; [cbn; lia |].
    rewrite Nat.add_0_r in Hposition.
    destruct (IH (S index)) as (views & Hviews & Hlookup).
    { intros k Hk. replace (S index + k) with (index + S k) by lia.
      apply Hpos. cbn. lia. }
    cbn. unfold view at 1. rewrite Hposition. cbn. rewrite Hviews. cbn.
    eexists. split; [reflexivity |].
    intros [| k] image' Hk.
    + injection Hk as <-. eexists. split; [reflexivity |].
      rewrite Nat.add_0_r. unfold view. by rewrite Hposition.
    + destruct (Hlookup k image' Hk) as (v & Hv & Hview).
      exists v. split; [done |].
      by replace (index + S k) with (S index + k) by lia.
Qed.

(** In exact arithmetic neighbouring images are 360 / n degrees apart. *)
Lemma exact_spacing (i n : nat) :
  S i < S n ->
  Qeq (Qminus (@angle Q exact (S i) (S n)) (@angle Q exact i (S n)))
      (Qdiv (inject_Z 360) (inject_Z (Z.of_nat (S n)))).
Proof.
  intros _. unfold angle. cbn [mul div of_nat full_turn exact].
  rewrite (Nat2Z.inj_succ i). unfold Z.succ. rewrite inject_Z_plus.
  field. rewrite Nat2Z.inj_succ. unfold Z.succ.
  intros Hz. assert (Hpos : (0 < Z.of_nat n + 1)%Z) by lia.
  apply (Qlt_irrefl 0%Q). rewrite <- Hz at 2.
  rewrite (Zlt_Qlt 0 (Z.of_nat n + 1)) in Hpos. exact Hpos.
Qed.

(** C10. For images of length n and i < n, the component renders, and the
    element of image i has rotateY = (i / n) * 360 and
    translateZ = imageDistance in its style, and the img inside it is
    rotated by -((i / n) * 360) degrees.  The angles are evenly spaced: in
    exact arithmetic the angle of image i + 1 exceeds that of image i by
    360 / n. *)
Theorem ring_places_images
  (p : ThreeDImageRingProps num) (s : State num) (i : nat) :
  i < length (images p) ->
  let n := length (images p) in
  (exists views v,
      ThreeDImageRing p s = Ok views
      /\ views !! i = Some v
      /\ style v = {| rotateY := angle i n; translateZ := imageDistance p |}
      /\ img_transform v = RotateY_deg (neg (angle i n)))
  /\ (S i < n ->
      Qeq (Qminus (@angle Q exact (S i) n) (@angle Q exact i n))
          (Qdiv (inject_Z 360) (inject_Z (Z.of_nat n)))).
Proof.
  intros Hi n. split.
  - destruct (views_from_lookup p s
                (imagePositions (images p) (imageDistance p)) (images p) 0)
      as (views & Hviews & Hlookup).
    { intros k Hk. rewrite imagePositions_lookup by done. by eexists. }
    destruct (lookup_lt_is_Some_2 (images p) i Hi) as [image Himage].
    destruct (Hlookup i image Himage) as (v & Hv & Hview).
    exists views, v. split; [done |]. split; [done |].
    cbn in Hview. unfold view in Hview.
    rewrite imagePositions_lookup in Hview by done.
    injection Hview as <-. done.
  - subst n. destruct (length (images p)) as [| m]; [lia |].
    apply exact_spacing.
Qed.

End Ring_properties.

Lemma handleDrag_updates_rotations_witness :
  Ring.handleDrag ring_of_four drag_4_6 (Ring.initial ring_of_four)
  = {| Ring.rotationX := (-3)%float; Ring.rotationY := 2%float;
       Ring.hoveredIndex := None |}
  /\ Ring.handleDrag fixed_ring drag_4_6 (Ring.initial fixed_ring)
     = Ring.initial fixed_ring.
Proof.
  split.
  - exact (proj1 (handleDrag_updates_rotations ring_of_four drag_4_6
                      (Ring.initial ring_of_four))
             ltac:(discriminate)).
  - exact (proj2 (handleDrag_updates_rotations fixed_ring drag_4_6
                      (Ring.initial fixed_ring))
             eq_refl).
Defined.

Lemma ring_places_images_witness :
  (exists views v,
      Ring.ThreeDImageRing ring_of_four (Ring.initial ring_of_four) = Ok views
      /\ views !! 1 = Some v
      /\ Ring.style v
         = {| Ring.rotateY := 90%float; Ring.translateZ := 300%float |}
      /\ Ring.img_transform v = Ring.RotateY_deg (-90)%float)
  /\ Qeq (Qminus (@Ring.angle Q Ring.exact 2 4) (@Ring.angle Q Ring.exact 1 4))
         (Qdiv (inject_Z 360) (inject_Z 4)).
Proof.
  destruct (ring_places_images ring_of_four (Ring.initial ring_of_four) 1
              ltac:(cbn; lia)) as [Hview Hspacing].
  split.
  - exact Hview.
  - apply Hspacing. cbn. lia.
Defined.

(** * Further properties *)

(** ** Drawer and Sheet *)

(** X1. Two calls of the same setOpen closure with an updater function, in
    an uncontrolled Drawer or Sheet with onOpenChange: the state cell gets
    the updater applied twice, but onOpenChange is told twice the same
    value, the updater applied once to the open value of the render the
    closure comes from. *)
Theorem setOpen_twice_in_one_render
  (dp : Drawer.DrawerProps) (sp : Sheet.SheetProps) (cb : Callback)
  (f : bool -> bool) (w : Store) :
  Drawer.controlledOpen dp = None ->
  Drawer.onOpenChange dp = Some cb ->
  Sheet.controlledOpen sp = None ->
  Sheet.onOpenChange sp = Some cb ->
  let told := Invoked cb (ArgBool (f (uncontrolledOpen w))) in
  let after := {| uncontrolledOpen := f (f (uncontrolledOpen w));
                  trace := trace w ++ [told; told] |} in
  (exists w1,
      Drawer.setOpen (Drawer.provide dp w) (Updater f) w = Ok w1
      /\ Drawer.setOpen (Drawer.provide dp w) (Updater f) w1 = Ok after)
  /\ (exists w1,
         Sheet.setOpen (Sheet.provide sp w) (Updater f) w = Ok w1
         /\ Sheet.setOpen (Sheet.provide sp w) (Updater f) w1 = Ok after).
Proof.
  intros Hdu Hdc Hsu Hsc told after. split.
  - cbn. rewrite Hdu, Hdc. cbn. eexists. split; [reflexivity |].
    cbn. unfold log, Store_traced. cbn. subst after told.
    by rewrite <- app_assoc.
  - cbn. rewrite Hsu, Hsc. cbn. eexists. split; [reflexivity |].
    cbn. unfold log, Store_traced. cbn. subst after told.
    by rewrite <- app_assoc.
Qed.

Lemma setOpen_twice_in_one_render_witness :
  (exists w1,
      Drawer.setOpen (Drawer.provide notifying_drawer closed_store)
        (Updater negb) closed_store = Ok w1
      /\ Drawer.setOpen (Drawer.provide notifying_drawer closed_store)
           (Updater negb) w1
         = Ok {| uncontrolledOpen := false;
                 trace := [Invoked "onOpenChange" (ArgBool true);
                           Invoked "onOpenChange" (ArgBool true)] |})
  /\ (exists w1,
         Sheet.setOpen (Sheet.provide notifying_sheet closed_store)
           (Updater negb) closed_store = Ok w1
         /\ Sheet.setOpen (Sheet.provide notifying_sheet closed_store)
              (Updater negb) w1
            = Ok {| uncontrolledOpen := false;
                    trace := [Invoked "onOpenChange" (ArgBool true);
                              Invoked "onOpenChange" (ArgBool true)] |}).
Proof.
  exact (setOpen_twice_in_one_render notifying_drawer notifying_sheet
           "onOpenChange" negb closed_store eq_refl eq_refl eq_refl eq_refl).
Defined.

(** X2. At its first render a Drawer shows its content exactly when the
    open prop is true or, with no open prop, defaultOpen is true: the open
    prop wins over defaultOpen, and with neither the drawer is closed. *)
Theorem Drawer_first_render (p : Drawer.DrawerProps) (children : list Node)
  (props : Attrs) :
  let shown := match Drawer.controlledOpen p with
               | Some o => o
               | None => default false (Drawer.defaultOpen p)
               end in
  (shown = true ->
   exists body, Drawer_content p children props (Drawer.initial p)
                = Ok (RPortal body DocumentBody))
  /\ (shown = false ->
      Drawer_content p children props (Drawer.initial p) = Ok RNull).
Proof.
  intros shown. unfold Drawer_content, Drawer.Drawer, Drawer.DrawerContent.
  cbn. fold shown. split; intros ->; cbn; [by eexists | done].
Qed.

Lemma Drawer_first_render_witness :
  (exists body,
      Drawer_content
        {| Drawer.defaultOpen := Some false; Drawer.controlledOpen := Some true;
           Drawer.onOpenChange := None |} [RText "body"] ∅
        {| uncontrolledOpen := false; trace := [] |}
      = Ok (RPortal body DocumentBody))
  /\ Drawer_content
       {| Drawer.defaultOpen := Some true; Drawer.controlledOpen := Some false;
          Drawer.onOpenChange := None |} [RText "body"] ∅
       {| uncontrolledOpen := true; trace := [] |}
     = Ok RNull.
Proof.
  split.
  - exact (proj1 (Drawer_first_render
                    {| Drawer.defaultOpen := Some false;
                       Drawer.controlledOpen := Some true;
                       Drawer.onOpenChange := None |} [RText "body"] ∅)
             eq_refl).
  - exact (proj2 (Drawer_first_render
                    {| Drawer.defaultOpen := Some true;
                       Drawer.controlledOpen := Some false;
                       Drawer.onOpenChange := None |} [RText "body"] ∅)
             eq_refl).
Defined.

Lemma Drawer_setOpen_not_stopped (p : Drawer.DrawerProps)
  (value : SetStateAction) (w0 w w' : Store) :
  Drawer.setOpen (Drawer.provide p w0) value w = Ok w' ->
  stopped w w' = false.
Proof.
  cbn. unfold stopped, recorded, Store_recorded.
  destruct (Drawer.onOpenChange p); intros [= <-]; cbn;
    destruct (negb _); cbn;
    by rewrite ?drop_app_length, ?drop_all.
Qed.

(** A listener on an element that only passes on the props it is given. *)
Lemma getListener_passed_on {W} (name tag : string) (props : Attrs)
  (own : gmap string (PropValue W)) (children : list (ReactNode W)) :
  own !! name = None ->
  name ∉ ["className"; "style"; "initial"; "animate"; "exit"; "transition"] ->
  shouldPreventMouseEvent name (Host tag) (spread props ∪ own) = false ->
  (props !! name = None ->
   getListener name (RElem (Host tag) (spread props ∪ own) children)
   = Ok None)
  /\ (forall cb, props !! name = Some (ACallback cb) ->
      getListener name (RElem (Host tag) (spread props ∪ own) children)
      = Ok (Some (Consumer cb))).
Proof.
  intros Hown Hname Hen. unfold getListener. rewrite Hen.
  rewrite lookup_union, Hown, (lookup_spread props name Hname).
  split; [by intros -> | by intros cb ->].
Qed.

Lemma dialog_listener (props : Attrs) (own : gmap string (PropValue Store))
  (children : list Node) :
  own !! "onClick" = None ->
  (props !! "onClick" = None ->
   getListener "onClick"
     (RElem (Host "motion.div") (spread props ∪ own) children)
   = Ok None)
  /\ (forall cb, props !! "onClick" = Some (ACallback cb) ->
      getListener "onClick"
        (RElem (Host "motion.div") (spread props ∪ own) children)
      = Ok (Some (Consumer cb))).
Proof.
  intros Hown. apply getListener_passed_on; [done | |].
  - apply (bool_decide_unpack _). reflexivity.
  - by apply not_interactive_not_prevented.
Qed.

(** X3. In the DrawerContent of an open Drawer the backdrop and the close
    button of the dialog call setOpen(false): props given to DrawerContent
    go to the dialog and cannot replace these two listeners.  A click on the
    backdrop does nothing else, whatever the children and props.  A click on
    the close button passes the dialog: when the props hold no
    onClickCapture, which would run before the button's listener, it calls
    setOpen(false) and then bubbles to the dialog, so an onClick callback
    among the props is invoked after setOpen(false); without an onClick
    among them the click does nothing else. *)
Theorem DrawerContent_closing_listeners (p : Drawer.DrawerProps)
  (w0 : Store) (children : list Node) (props : Attrs) (w : Store) :
  Drawer.open (Drawer.provide p w0) = true ->
  click_at DrawerContent_backdrop
    (Drawer.DrawerContent (Some (Drawer.provide p w0)) children props) w
  = Drawer.setOpen (Drawer.provide p w0) (Value false) w
  /\ (props !! "onClickCapture" = None ->
      (props !! "onClick" = None ->
       click_at (DrawerContent_close_button children)
         (Drawer.DrawerContent (Some (Drawer.provide p w0)) children props) w
       = Drawer.setOpen (Drawer.provide p w0) (Value false) w)
      /\ (forall cb, props !! "onClick" = Some (ACallback cb) ->
          click_at (DrawerContent_close_button children)
            (Drawer.DrawerContent (Some (Drawer.provide p w0)) children props)
            w
          = (w' ← Drawer.setOpen (Drawer.provide p w0) (Value false) w;
             Ok (log (Invoked cb (ArgEvent click)) w')))).
Proof.
  intros Ho. split; [by apply DrawerContent_backdrop_click |].
  intros Hcap. split.
  - intros Hno.
    unfold click_at, Drawer.DrawerContent, DrawerContent_close_button.
    cbn -[dispatch Drawer.provide]. rewrite Ho.
    cbn -[dispatch Drawer.provide].
    erewrite dispatch_bubble;
      [| cbn -[Drawer.provide];
         rewrite (list_lookup_middle children [] _ (length children) eq_refl);
         reflexivity
       | capture_free Hcap].
    cbn -[getListener execute Drawer.provide].
    own_listener "button"
      (fun _ : Event => Drawer.setOpen (Drawer.provide p w0) (Value false)).
    match goal with
    | |- context [getListener "onClick"
                    (RElem (Host "motion.div") (_ ∪ ?own) ?cs)] =>
        rewrite (proj1 (dialog_listener props own cs eq_refl) Hno)
    end.
    cbn -[execute Drawer.provide]. apply execute_one.
  - intros cb Hcb.
    unfold click_at, Drawer.DrawerContent, DrawerContent_close_button.
    cbn -[dispatch Drawer.provide]. rewrite Ho.
    cbn -[dispatch Drawer.provide].
    erewrite dispatch_bubble;
      [| cbn -[Drawer.provide];
         rewrite (list_lookup_middle children [] _ (length children) eq_refl);
         reflexivity
       | capture_free Hcap].
    cbn -[getListener execute Drawer.provide].
    own_listener "button"
      (fun _ : Event => Drawer.setOpen (Drawer.provide p w0) (Value false)).
    match goal with
    | |- context [getListener "onClick"
                    (RElem (Host "motion.div") (_ ∪ ?own) ?cs)] =>
        rewrite (proj2 (dialog_listener props own cs eq_refl) cb Hcb)
    end.
    repeat no_listener "div".
    cbn -[execute stopped Drawer.provide].
    rewrite execute_two by done. cbn -[stopped Drawer.provide].
    destruct (Drawer.setOpen (Drawer.provide p w0) (Value false) w)
      as [w' | msg] eqn:Hset; cbn -[stopped]; [| done].
    by rewrite (Drawer_setOpen_not_stopped p _ w0 w w' Hset).
Qed.

Lemma DrawerContent_closing_listeners_witness :
  click_at DrawerContent_backdrop
    (Drawer.DrawerContent (Some (Drawer.provide uncontrolled_drawer open_store))
       [RText "a"; RText "b"] tracked) open_store
  = Ok closed_store
  /\ click_at (DrawerContent_close_button [RText "a"; RText "b"])
       (Drawer.DrawerContent
          (Some (Drawer.provide uncontrolled_drawer open_store))
          [RText "a"; RText "b"] ∅) open_store
     = Ok closed_store
  /\ click_at (DrawerContent_close_button [RText "a"; RText "b"])
       (Drawer.DrawerContent
          (Some (Drawer.provide uncontrolled_drawer open_store))
          [RText "a"; RText "b"] tracked) open_store
     = Ok {| uncontrolledOpen := false;
             trace := [Invoked "track" (ArgEvent click)] |}.
Proof.
  split; [| split].
  - exact (proj1 (DrawerContent_closing_listeners uncontrolled_drawer
                    open_store [RText "a"; RText "b"] tracked open_store
                    eq_refl)).
  - exact (proj1 (proj2 (DrawerContent_closing_listeners uncontrolled_drawer
                           open_store [RText "a"; RText "b"] ∅ open_store
                           eq_refl) eq_refl) eq_refl).
  - exact (proj2 (proj2 (DrawerContent_closing_listeners uncontrolled_drawer
                           open_store [RText "a"; RText "b"] tracked
                           open_store eq_refl) eq_refl) "track" eq_refl).
Defined.

(** X4. An uncontrolled Drawer, from any state: a click on the trigger
    (given no onClick, no onClickCapture and no truthy disabled prop) makes
    DrawerContent render its portal, and a click on the backdrop then makes
    it render null again. *)
Theorem Drawer_opens_then_closes (p : Drawer.DrawerProps)
  (tchildren children : list Node) (tprops props : Attrs) (w : Store) :
  Drawer.controlledOpen p = None ->
  tprops !! "onClick" = None ->
  tprops !! "onClickCapture" = None ->
  enabled tprops = true ->
  exists w1 w2,
    Drawer_click_trigger p tchildren tprops w = Ok w1
    /\ (exists body, Drawer_content p children props w1
                     = Ok (RPortal body DocumentBody))
    /\ Drawer_click_backdrop p children props w1 = Ok w2
    /\ Drawer_content p children props w2 = Ok RNull.
Proof.
  intros Hu Hno Hcap Hen.
  destruct (Drawer_setOpen_uncontrolled p true w w Hu) as (w1 & H1 & Ho1).
  destruct (Drawer_setOpen_uncontrolled p false w1 w1 Hu) as (w2 & H2 & Ho2).
  assert (Hopen : Drawer.open (Drawer.provide p w1) = true)
    by (cbn; by rewrite Hu).
  exists w1, w2.
  unfold Drawer_click_trigger, Drawer_click_backdrop, Drawer_content,
    Drawer.Drawer.
  split; [| split; [| split]].
  - by rewrite DrawerTrigger_click.
  - unfold Drawer.DrawerContent. cbn. rewrite Hu, Ho1. cbn. by eexists.
  - exact (eq_trans
             (DrawerContent_backdrop_click _ children props w1 Hopen) H2).
  - unfold Drawer.DrawerContent. cbn. by rewrite Hu, Ho2.
Qed.

Lemma Drawer_opens_then_closes_witness :
  exists w1 w2,
    Drawer_click_trigger uncontrolled_drawer [RText "Open"] ∅ closed_store
    = Ok w1
    /\ (exists body, Drawer_content uncontrolled_drawer [RText "body"] tracked
                       w1 = Ok (RPortal body DocumentBody))
    /\ Drawer_click_backdrop uncontrolled_drawer [RText "body"] tracked w1
       = Ok w2
    /\ Drawer_content uncontrolled_drawer [RText "body"] tracked w2
       = Ok RNull.
Proof.
  exact (Drawer_opens_then_closes uncontrolled_drawer [RText "Open"]
           [RText "body"] ∅ tracked closed_store eq_refl eq_refl eq_refl
           eq_refl).
Defined.

(** X5. A SheetTrigger with asChild around one element returns that element
    with its type and children, and writes nothing to the console.  For an
    attribute other than onClick (and other than the styling ones left
    out), the value given to the trigger wins over the one of the child,
    which is kept when the trigger gives none. *)
Theorem SheetTrigger_asChild_merges_props
  (context : option Sheet.SheetContextValue) (type : ElemType)
  (child_props : gmap string (PropValue Store)) (child_children : list Node)
  (props : Attrs) (k : string) :
  k <> "onClick" ->
  k ∉ ["className"; "style"; "initial"; "animate"; "exit"; "transition"] ->
  exists merged,
    Sheet.SheetTrigger context [RElem type child_props child_children] true
      props
    = Ok ([], RElem type merged child_children)
    /\ merged !! k = match props !! k with
                     | Some a => Some (PAttr a)
                     | None => child_props !! k
                     end.
Proof.
  intros Hk Hstyle. eexists. split; [reflexivity |].
  rewrite lookup_union, lookup_insert_ne by done.
  rewrite lookup_union, (lookup_spread props k Hstyle).
  destruct (props !! k) as [a |]; cbn; by destruct (child_props !! k).
Qed.

Lemma SheetTrigger_asChild_merges_props_witness :
  exists merged,
    Sheet.SheetTrigger None [RElem (Host "a") link_props [RText "Menu"]]
      true {[ "id" := AStr "trigger" ]}
    = Ok ([], RElem (Host "a") merged [RText "Menu"])
    /\ merged !! "id" = Some (PAttr (AStr "trigger")).
Proof.
  exact (SheetTrigger_asChild_merges_props None (Host "a") link_props
           [RText "Menu"] {[ "id" := AStr "trigger" ]} "id"
           ltac:(done)
           ltac:(apply (bool_decide_unpack _); reflexivity)).
Defined.

(** X6. A click on a SheetTrigger with asChild, in an uncontrolled Sheet
    with onOpenChange, around a DOM element that is not switched off, whose
    onClick is a callback and that gets no onClickCapture from the trigger
    or of its own: the sheet opens, onOpenChange is told true, and the
    callback of the child is invoked after it.  An onClick given to the
    trigger itself is never invoked. *)
Theorem SheetTrigger_asChild_click_order (p : Sheet.SheetProps)
  (cb child_cb : Callback) (tag : string)
  (child_props : gmap string (PropValue Store)) (child_children : list Node)
  (props : Attrs) (w : Store) :
  Sheet.controlledOpen p = None ->
  Sheet.onOpenChange p = Some cb ->
  child_props !! "onClick" = Some (PAttr (ACallback child_cb)) ->
  asChild_prevented tag props child_props = false ->
  props !! "onClickCapture" = None ->
  child_props !! "onClickCapture" = None ->
  Sheet_click_trigger p [RElem (Host tag) child_props child_children] true
    props w
  = Ok {| uncontrolledOpen := true;
          trace := trace w ++ [Invoked cb (ArgBool true);
                               Invoked child_cb (ArgEvent click)] |}.
Proof.
  intros Hu Hcb Hchild Hen Hcap Hown.
  unfold Sheet_click_trigger, Sheet.Sheet.
  rewrite SheetTrigger_asChild_click, Hchild by done. cbn.
  rewrite Hu, Hcb. cbn. unfold log, Store_traced. cbn.
  by rewrite <- app_assoc.
Qed.

Lemma SheetTrigger_asChild_click_order_witness :
  Sheet_click_trigger notifying_sheet
    [RElem (Host "a") link_props [RText "Menu"]] true tracked closed_store
  = Ok {| uncontrolledOpen := true;
          trace := [Invoked "onOpenChange" (ArgBool true);
                    Invoked "navigate" (ArgEvent click)] |}.
Proof.
  exact (SheetTrigger_asChild_click_order notifying_sheet "onOpenChange"
           "navigate" "a" link_props [RText "Menu"] tracked
           closed_store eq_refl eq_refl eq_refl eq_refl eq_refl eq_refl).
Defined.

(** X7. SheetOverlay renders one motion.div with its children.  The drag
    listeners and onAnimationStart it is given never reach that element;
    every other attribute (but onClick and the styling ones left out) is
    passed on as given. *)
Theorem SheetOverlay_forwards (context : option Sheet.SheetContextValue)
  (children : list Node) (props : Attrs) (k : string) :
  exists forwarded,
    Sheet.SheetOverlay context children props
    = Ok (RElem (Host "motion.div") forwarded children)
    /\ (k ∈ ["onDrag"; "onDragEnd"; "onDragStart"; "onDragExit";
             "onDragEnter"; "onDragLeave"; "onDragOver"; "onDrop";
             "onAnimationStart"] ->
        forwarded !! k = None)
    /\ (k ∉ ["onDrag"; "onDragEnd"; "onDragStart"; "onDragExit";
             "onDragEnter"; "onDragLeave"; "onDragOver"; "onDrop";
             "onAnimationStart"] ->
        k <> "onClick" ->
        k ∉ ["className"; "style"; "initial"; "animate"; "exit";
             "transition"] ->
        forwarded !! k = PAttr <$> props !! k).
Proof.
  eexists. split; [reflexivity |]. split.
  - intros Hk. rewrite lookup_union.
    assert (Hrest : Sheet.restProps props !! k = None).
    { unfold Sheet.restProps.
      repeat (apply elem_of_cons in Hk as [-> | Hk];
              [by repeat (rewrite lookup_delete_eq
                          || rewrite lookup_delete_ne by done) |]).
      by apply elem_of_nil in Hk. }
    assert (Hown : ({[ "onClick" :=
                         PHandler (fun _ => Sheet.setOpen_or_noop context
                                              (Value false)) ]}
                    : gmap string (PropValue Store)) !! k = None).
    { apply lookup_singleton_ne. intros <-.
      revert Hk. apply (bool_decide_unpack _). reflexivity. }
    rewrite Hown. unfold spread. rewrite lookup_fmap.
    assert (Herase : erase (Sheet.restProps props) !! k = None).
    { unfold erase.
      repeat (rewrite lookup_delete_ne;
              [| intros <-; revert Hk; apply (bool_decide_unpack _);
                 reflexivity]).
      done. }
    by rewrite Herase.
  - intros Hdrag Hclick Hstyle. rewrite lookup_union.
    rewrite lookup_singleton_ne by done.
    rewrite (lookup_spread _ k Hstyle).
    unfold Sheet.restProps.
    repeat (rewrite lookup_delete_ne;
            [| intros <-; apply Hdrag; apply (bool_decide_unpack _);
               reflexivity]).
    by destruct (props !! k).
Qed.

Lemma SheetOverlay_forwards_witness :
  exists forwarded,
    Sheet.SheetOverlay None []
      {[ "onDrag" := ACallback "drag"; "id" := AStr "overlay" ]}
    = Ok (RElem (Host "motion.div") forwarded [])
    /\ forwarded !! "onDrag" = None
    /\ forwarded !! "id" = Some (PAttr (AStr "overlay")).
Proof.
  destruct (SheetOverlay_forwards None []
              {[ "onDrag" := ACallback "drag"; "id" := AStr "overlay" ]}
              "onDrag") as (forwarded & Hrender & Hdrag & _).
  destruct (SheetOverlay_forwards None []
              {[ "onDrag" := ACallback "drag"; "id" := AStr "overlay" ]}
              "id") as (forwarded' & Hrender' & _ & Hid).
  rewrite Hrender in Hrender'. injection Hrender' as <-.
  exists forwarded. split; [exact Hrender |]. split.
  - apply Hdrag. apply (bool_decide_unpack _). reflexivity.
  - apply Hid; [apply (bool_decide_unpack _); reflexivity | done
               | apply (bool_decide_unpack _); reflexivity].
Defined.

(** X8. A click on the overlay of an uncontrolled Sheet (overlay given no
    onClick and no onClickCapture prop) closes it: afterwards SheetPortal
    and SheetContentInner render nothing, and SheetContent renders an empty
    element, not the portal, mounted or not. *)
Theorem Sheet_overlay_click_closes (p : Sheet.SheetProps)
  (ochildren children : list Node) (oprops props : Attrs) (w : Store) :
  Sheet.controlledOpen p = None ->
  oprops !! "onClick" = None ->
  oprops !! "onClickCapture" = None ->
  exists w',
    Sheet_click_overlay p ochildren oprops w = Ok w'
    /\ Sheet.SheetPortal (Some (Sheet.provide p w')) children = Ok RNull
    /\ Sheet.SheetContentInner (Some (Sheet.provide p w')) children props
       = Ok RNull
    /\ forall mounted,
         Sheet.SheetContent (Some (Sheet.provide p w')) mounted children props
         = Ok (RElem (Host "div") ∅ []).
Proof.
  intros Hu Hno Hcap.
  destruct (Sheet_setOpen_uncontrolled p false w w Hu) as (w' & Hw' & Ho).
  exists w'. split.
  - unfold Sheet_click_overlay, Sheet.Sheet, click_on, Sheet.SheetOverlay.
    cbn -[fire Sheet.provide].
    rewrite (fire_closure "onClick" "motion.div" _ ochildren
               (fun _ => Sheet.setOpen (Sheet.provide p w) (Value false))
               click w).
    + exact Hw'.
    + apply lookup_absent; [reflexivity | |].
      * apply (bool_decide_unpack _). reflexivity.
      * by rewrite lookup_restProps_onClickCapture.
    + by apply not_interactive_not_prevented.
    + rewrite onClick_kept by by rewrite lookup_restProps_onClick.
      reflexivity.
  - unfold Sheet.SheetPortal, Sheet.SheetContentInner, Sheet.SheetContent.
    cbn. rewrite Hu, Ho. cbn. repeat split.
    intros mounted. by rewrite orb_true_r.
Qed.

Lemma Sheet_overlay_click_closes_witness :
  exists w',
    Sheet_click_overlay uncontrolled_sheet [] ∅ open_store = Ok w'
    /\ Sheet.SheetPortal (Some (Sheet.provide uncontrolled_sheet w'))
         [RText "body"] = Ok RNull
    /\ Sheet.SheetContentInner (Some (Sheet.provide uncontrolled_sheet w'))
         [RText "body"] ∅ = Ok RNull
    /\ forall mounted,
         Sheet.SheetContent (Some (Sheet.provide uncontrolled_sheet w'))
           mounted [RText "body"] ∅
         = Ok (RElem (Host "div") ∅ []).
Proof.
  exact (Sheet_overlay_click_closes uncontrolled_sheet [] [RText "body"] ∅ ∅
           open_store eq_refl eq_refl eq_refl).
Defined.

(** ** Select *)

(** X9. After mounting, the state of a Select agrees with its props: isOpen
    is the open prop when given and defaultOpen (or false) otherwise,
    selectedValue is the value prop when given and defaultValue (or the
    empty string) otherwise, the search query is empty and no callback was
    invoked. *)
Theorem Select_mount_follows_props (p : Select.Props.t) :
  Select.State.isOpen (Select.mount p)
  = match Select.Props.open p with
    | Some o => o
    | None => default false (Select.Props.defaultOpen p)
    end
  /\ Select.State.selectedValue (Select.mount p)
     = match Select.Props.value p with
       | Some v => v
       | None => default "" (Select.Props.defaultValue p)
       end
  /\ Select.State.searchQuery (Select.mount p) = ""
  /\ Select.State.trace (Select.mount p) = [].
Proof.
  unfold Select.mount, Select.commit, Select.effect_query,
    Select.effect_open, Select.effect_value, Select.initial.
  destruct p as [dv v ovc dopen o ooc dis]. cbn.
  destruct o as [[] |], v as [v |], dopen as [[] |]; cbn; done.
Qed.



(** X11. A disabled Select ignores the clicks on its trigger, controlled or
    not.  When the trigger is given no click listener (onClick,
    onClickCapture), the click changes nothing: the state is as before and
    onOpenChange is not invoked.  Whatever the props of the trigger, the
    click changes neither the open state, nor the selected value, nor the
    search query. *)
Theorem disabled_Select_ignores_click (p : Select.Props.t)
  (children : list Select.SNode) (props : Attrs) (w : Select.State.t) :
  Select.Props.disabled p = Some true ->
  (props !! "onClick" = None ->
   props !! "onClickCapture" = None ->
   Select_click_trigger p children props w = Ok w)
  /\ (forall w',
        Select_click_trigger p children props w = Ok w' ->
        Select.State.isOpen w' = Select.State.isOpen w
        /\ Select.State.selectedValue w' = Select.State.selectedValue w
        /\ Select.State.searchQuery w' = Select.State.searchQuery w).
Proof.
  intros Hdis. split.
  - intros Hno Hcap. unfold Select_click_trigger, Select.Select.
    destruct (enabled props) eqn:Hen.
    + rewrite SelectTrigger_click by done. cbn.
      unfold Select.handleOpenChange. rewrite Hdis. cbn.
      by rewrite commit_same.
    + unfold click_on, Select.SelectTrigger. cbn -[fire].
      rewrite disabled_button_click by done. cbn.
      by rewrite commit_same.
  - intros w'. unfold Select_click_trigger, Select.Select.
    destruct (click_on _ w) as [w1 | msg] eqn:Hclick; cbn -[Select.commit];
      [| done].
    intros [= <-].
    assert (Select.State.isOpen w1 = Select.State.isOpen w
            /\ Select.State.selectedValue w1 = Select.State.selectedValue w
            /\ Select.State.searchQuery w1 = Select.State.searchQuery w)
      as (Hopen & Hvalue & Hquery).
    { revert Hclick. unfold click_on, Select.SelectTrigger. cbn -[fire].
      apply (fire_frame
               (fun w1 w2 =>
                  Select.State.isOpen w2 = Select.State.isOpen w1
                  /\ Select.State.selectedValue w2
                     = Select.State.selectedValue w1
                  /\ Select.State.searchQuery w2
                     = Select.State.searchQuery w1));
        [done | intros w1' w2' w3' (? & ? & ?) (? & ? & ?); repeat split;
                congruence |].
      intros n l w2 w3 Hn Hl Hinvoke.
      apply getListener_spread in Hl
        as [(h & Hown & ->) | [[cb ->] | [a ->]]]; [| | done].
      - destruct Hn as [-> | ->]; [done |].
        cbn in Hown. injection Hown as <-.
        change (Select.handleOpenChange p (negb (Select.State.isOpen w)) w2
                = Ok w3) in Hinvoke.
        unfold Select.handleOpenChange in Hinvoke. rewrite Hdis in Hinvoke.
        cbn in Hinvoke. by injection Hinvoke as <-.
      - cbn in Hinvoke. by injection Hinvoke as <-. }
    unfold Select.commit. rewrite Hopen, Bool.eqb_reflx. done.
Qed.

Lemma disabled_Select_ignores_click_witness :
  Select_click_trigger disabled_select [RText "Pick"] ∅ open_select_store
  = Ok open_select_store.
Proof.
  exact (proj1 (disabled_Select_ignores_click disabled_select [RText "Pick"]
                  ∅ open_select_store eq_refl) eq_refl eq_refl).
Defined.

(** X12. A click on the button of the trigger (given no onClick, no
    onClickCapture and no truthy disabled prop) of a controlled Select that
    is not disabled
    and has onOpenChange: onOpenChange is invoked once with the negation of
    the open state, and the state itself, isOpen included, is as before. *)
Theorem controlled_Select_click_notifies (p : Select.Props.t) (o : bool)
  (cb : Callback) (children : list Select.SNode) (props : Attrs)
  (w : Select.State.t) :
  Select.Props.open p = Some o ->
  Select.Props.disabled p <> Some true ->
  Select.Props.onOpenChange p = Some cb ->
  props !! "onClick" = None ->
  props !! "onClickCapture" = None ->
  enabled props = true ->
  Select_click_trigger p children props w
  = Ok {| Select.State.selectedValue := Select.State.selectedValue w;
          Select.State.isOpen := Select.State.isOpen w;
          Select.State.searchQuery := Select.State.searchQuery w;
          Select.State.trace :=
            Select.State.trace w
            ++ [Invoked cb (ArgBool (negb (Select.State.isOpen w)))] |}.
Proof.
  intros Ho Hen Hcb Hno Hcap Hon.
  unfold Select_click_trigger, Select.Select.
  rewrite SelectTrigger_click by done. cbn.
  unfold Select.handleOpenChange. rewrite Ho, Hcb.
  destruct (Select.Props.disabled p) as [[] |]; [done | |];
    cbn; unfold Select.commit; cbn; by rewrite Bool.eqb_reflx.
Qed.

Lemma controlled_Select_click_notifies_witness :
  Select_click_trigger controlled_select [RText "Pick"] ∅
    (Select.mount controlled_select)
  = Ok {| Select.State.selectedValue := "";
          Select.State.isOpen := false;
          Select.State.searchQuery := "";
          Select.State.trace := [Invoked "onOpenChange" (ArgBool true)] |}.
Proof.
  exact (controlled_Select_click_notifies controlled_select false
           "onOpenChange" [RText "Pick"] ∅ (Select.mount controlled_select)
           eq_refl ltac:(discriminate) eq_refl eq_refl eq_refl eq_refl).
Defined.


Lemma handleOpenChange_frame (p : Select.Props.t) (newOpen : bool)
  (w : Select.State.t) :
  exists w',
    Select.handleOpenChange p newOpen w = Ok w'
    /\ Select.State.searchQuery w' = Select.State.searchQuery w
    /\ Select.State.selectedValue w' = Select.State.selectedValue w
    /\ (Select.State.isOpen w' = Select.State.isOpen w
        \/ Select.State.isOpen w' = newOpen).
Proof.
  unfold Select.handleOpenChange.
  destruct (default false (Select.Props.disabled p)); [by exists w; auto |].
  destruct (Select.Props.open p), (Select.Props.onOpenChange p); cbn;
    eexists; (split; [reflexivity |]); cbn; auto.
Qed.

Lemma commit_query_cleared (before after : Select.State.t) :
  query_cleared before ->
  Select.State.searchQuery after = Select.State.searchQuery before ->
  query_cleared (Select.commit before after).
Proof.
  unfold query_cleared, Select.commit, Select.effect_query.
  intros Hinv Hq.
  destruct (Select.State.isOpen before) eqn:Hb,
    (Select.State.isOpen after) eqn:Ha; cbn; try rewrite Ha; try done.
  intros _. rewrite Hq. by apply Hinv.
Qed.

(** Whatever the props of the trigger, a click on its button leaves the
    search query as it is. *)
Lemma SelectTrigger_click_keeps_query (p : Select.Props.t)
  (children : list Select.SNode) (props : Attrs) (w w' : Select.State.t) :
  click_on (Select.SelectTrigger (Some (Select.provide p w)) children props) w
  = Ok w' ->
  Select.State.searchQuery w' = Select.State.searchQuery w.
Proof.
  unfold click_on, Select.SelectTrigger. cbn -[fire].
  apply (fire_frame (fun w1 w2 => Select.State.searchQuery w2
                                  = Select.State.searchQuery w1));
    [done | intros w1 w2 w3 H12 H23; by rewrite H23 |].
  intros n l w1 w2 Hn Hl Hinvoke.
  apply getListener_spread in Hl as [(h & Hown & ->) | [[cb ->] | [a ->]]].
  - destruct Hn as [-> | ->]; [done |].
    cbn in Hown. injection Hown as <-.
    change (Select.handleOpenChange p (negb (Select.State.isOpen w)) w1
            = Ok w2) in Hinvoke.
    destruct (handleOpenChange_frame p (negb (Select.State.isOpen w)) w1)
      as (w3 & Hw3 & Hq & _).
    rewrite Hw3 in Hinvoke. by injection Hinvoke as <-.
  - cbn in Hinvoke. by injection Hinvoke as <-.
  - done.
Qed.

(** X14. A closed Select has an empty search query.  This holds once the
    Select is mounted, and every click on its trigger keeps it, whatever
    the props of Select and trigger: a click that closes the Select clears
    the query, so the search box is empty whenever the Select is opened
    again. *)
Theorem closed_Select_has_no_query (p : Select.Props.t)
  (children : list Select.SNode) (props : Attrs) (w w' : Select.State.t) :
  query_cleared (Select.mount p)
  /\ (query_cleared w ->
      Select_click_trigger p children props w = Ok w' ->
      query_cleared w').
Proof.
  split.
  - intros _. unfold Select.mount, Select.commit, Select.effect_query,
      Select.effect_open, Select.effect_value, Select.initial.
    destruct p as [dv v ovc dopen o ooc dis]. cbn.
    destruct o as [[] |], v as [v |], dopen as [[] |]; cbn; done.
  - intros Hinv. unfold Select_click_trigger, Select.Select.
    destruct (click_on _ w) as [w1 | msg] eqn:Hclick; cbn -[Select.commit];
      [| done].
    intros [= <-]. apply commit_query_cleared; [done |].
    by apply (SelectTrigger_click_keeps_query p children props).
Qed.

Lemma closed_Select_has_no_query_witness :
  Select_click_trigger uncontrolled_select [RText "Pick"] ∅ open_select_store
  = Ok {| Select.State.selectedValue := "pear"; Select.State.isOpen := false;
          Select.State.searchQuery := ""; Select.State.trace := [] |}
  /\ Select.State.searchQuery
       {| Select.State.selectedValue := "pear"; Select.State.isOpen := false;
          Select.State.searchQuery := ""; Select.State.trace := [] |} = "".
Proof.
  split; [reflexivity |].
  apply (proj2 (closed_Select_has_no_query uncontrolled_select
                  [RText "Pick"] ∅ open_select_store
                  {| Select.State.selectedValue := "pear";
                     Select.State.isOpen := false;
                     Select.State.searchQuery := "";
                     Select.State.trace := [] |})).
  - discriminate.
  - reflexivity.
  - reflexivity.
Defined.

(** X15. Typing into the search input of an open Select stores the text
    the input then holds as search query and changes no other state.  The
    change event passes the button of the trigger: when SelectTrigger is
    given no onChangeCapture, which would run before the listener of the
    input, an onChange callback given to SelectTrigger is invoked after the
    query is stored, provided the text differs from the query before (there
    is no change event otherwise), and without an onChange among the props
    nothing else happens.  The trigger rendered next shows the input with the
    text as its value. *)
Theorem typing_sets_searchQuery (p : Select.Props.t)
  (children : list Select.SNode) (props : Attrs) (text : string)
  (w : Select.State.t) :
  Select.State.isOpen w = true ->
  props !! "onChangeCapture" = None ->
  let w' := {| Select.State.selectedValue := Select.State.selectedValue w;
               Select.State.isOpen := true;
               Select.State.searchQuery := text;
               Select.State.trace := Select.State.trace w |} in
  (props !! "onChange" = None ->
   Select_type p children props text w = Ok w')
  /\ (forall cb, props !! "onChange" = Some (ACallback cb) ->
      text <> Select.State.searchQuery w ->
      Select_type p children props text w
      = Ok (log (Invoked cb (ArgEvent {| target_value := text |})) w'))
  /\ exists button input_props,
       Select.Select p
         (fun context => Select.SelectTrigger context children props) w'
       = Ok button
       /\ descend [0] button = Some (RElem (Host "input") input_props [])
       /\ input_props !! "value" = Some (PAttr (AStr text)).
Proof.
  intros Ho Hcap w'.
  assert (Hbutton :
    forall (own : gmap string (PropValue Select.State.t)) cs,
      own !! "onChange" = None ->
      (props !! "onChange" = None ->
       getListener "onChange"
         (RElem (Host "button") (spread props ∪ own) cs) = Ok None)
      /\ (forall cb, props !! "onChange" = Some (ACallback cb) ->
          getListener "onChange"
            (RElem (Host "button") (spread props ∪ own) cs)
          = Ok (Some (Consumer cb)))).
  { intros own cs Hown. apply getListener_passed_on; [done | | done].
    apply (bool_decide_unpack _). reflexivity. }
  assert (Hnot : forall text, stopped w (Select.State.setSearchQuery text w)
                              = false).
  { intros text'. unfold stopped, recorded, Select.State_recorded. cbn.
    by rewrite drop_all. }
  split; [| split].
  - intros Hno. unfold Select_type.
    destruct (String.eqb_spec text (Select.State.searchQuery w)) as [-> | _].
    { subst w'. destruct w. cbn in Ho |- *. by rewrite Ho. }
    unfold fire_at, Select.Select, Select.SelectTrigger.
    cbn -[dispatch]. rewrite Ho. cbn -[dispatch].
    erewrite dispatch_bubble; [| reflexivity | capture_free Hcap].
    cbn -[getListener execute].
    own_listener "input"
      (fun (e : Event) (w0 : Select.State.t) =>
         @Ok Select.State.t (Select.State.setSearchQuery (target_value e) w0)).
    match goal with
    | |- context [getListener "onChange"
                    (RElem (Host "button") (_ ∪ ?own) ?cs)] =>
        rewrite (proj1 (Hbutton own cs eq_refl) Hno)
    end.
    cbn -[execute]. rewrite execute_one. cbn.
    unfold Select.commit. cbn. rewrite Ho. cbn.
    unfold Select.State.setSearchQuery. by rewrite Ho.
  - intros cb Hcb Hnew. unfold Select_type.
    destruct (String.eqb_spec text (Select.State.searchQuery w)) as [| _];
      [done |].
    unfold fire_at, Select.Select, Select.SelectTrigger.
    cbn -[dispatch]. rewrite Ho. cbn -[dispatch].
    erewrite dispatch_bubble; [| reflexivity | capture_free Hcap].
    cbn -[getListener execute].
    own_listener "input"
      (fun (e : Event) (w0 : Select.State.t) =>
         @Ok Select.State.t (Select.State.setSearchQuery (target_value e) w0)).
    match goal with
    | |- context [getListener "onChange"
                    (RElem (Host "button") (_ ∪ ?own) ?cs)] =>
        rewrite (proj2 (Hbutton own cs eq_refl) cb Hcb)
    end.
    cbn -[execute]. rewrite execute_two by done.
    cbn -[stopped Select.State.setSearchQuery]. rewrite Hnot. cbn.
    unfold Select.commit. cbn. rewrite Ho. cbn.
    unfold Select.State.setSearchQuery, log, Select.State_traced. cbn.
    by rewrite Ho.
  - unfold Select.Select. cbn. eexists _, _.
    split; [reflexivity |]. split; [reflexivity |]. done.
Qed.

Lemma typing_sets_searchQuery_witness :
  Select_type uncontrolled_select [RText "Pick"] ∅ "pea" open_select_store
  = Ok {| Select.State.selectedValue := "pear"; Select.State.isOpen := true;
          Select.State.searchQuery := "pea"; Select.State.trace := [] |}
  /\ Select_type uncontrolled_select [RText "Pick"]
       {[ "onChange" := ACallback "typed" ]} "pea" open_select_store
     = Ok {| Select.State.selectedValue := "pear";
             Select.State.isOpen := true;
             Select.State.searchQuery := "pea";
             Select.State.trace :=
               [Invoked "typed" (ArgEvent {| target_value := "pea" |})] |}.
Proof.
  split.
  - exact (proj1 (typing_sets_searchQuery uncontrolled_select [RText "Pick"]
                    ∅ "pea" open_select_store eq_refl eq_refl) eq_refl).
  - exact (proj1 (proj2 (typing_sets_searchQuery uncontrolled_select
                           [RText "Pick"]
                           {[ "onChange" := ACallback "typed" ]} "pea"
                           open_select_store eq_refl eq_refl))
             "typed" eq_refl ltac:(discriminate)).
Defined.



Lemma findDisplayValue_node_skipped (context_value : string)
  (displayValue : list Select.SNode) (node : Select.SNode) :
  skipped context_value node = true ->
  Select.findDisplayValue_node context_value displayValue node = displayValue.
Proof.
  destruct node as [| s | type props children | child container];
    try done.
  cbn [skipped Select.findDisplayValue_node]. intros Hs.
  apply andb_prop in Hs as [Hgroup Hitem].
  apply negb_true_iff in Hgroup, Hitem.
  rewrite Hitem, Hgroup. by destruct (Select.truthy_children displayValue).
Qed.

Lemma findDisplayValue_skipped (context_value : string)
  (nodes displayValue : list Select.SNode) :
  forallb (skipped context_value) nodes = true ->
  fold_left (Select.findDisplayValue_node context_value) nodes displayValue
  = displayValue.
Proof.
  induction nodes as [| node nodes IH]; [done |].
  cbn [forallb fold_left]. intros Hs.
  apply andb_prop in Hs as [Hnode Hnodes].
  rewrite findDisplayValue_node_skipped by done. by apply IH.
Qed.


(** X17. What SelectValue shows when its children hold no SelectGroup and no
    SelectItem of the selected value at their top level (an item wrapped in
    any other element is not looked at): the selected value when it is not
    empty, else the placeholder when it is given and not empty, else the
    span that says "Select an option". *)
Theorem SelectValue_without_matching_item (context : Select.SelectContextType)
  (children : list Select.SNode) (placeholder : option string)
  (props : Attrs) :
  forallb (skipped (Select.value context)) children = true ->
  Select.SelectValue (Some context) children placeholder props
  = Ok (RElem (Host "span") (spread props)
          (if negb (String.eqb (Select.value context) "")
           then [RText (Select.value context)]
           else match placeholder with
                | Some s => if String.eqb s "" then [select_an_option]
                            else [RText s]
                | None => [select_an_option]
                end)).
Proof.
  intros Hs. unfold Select.SelectValue, Select.findDisplayValue.
  rewrite findDisplayValue_skipped by done. cbn.
  destruct (String.eqb (Select.value context) "") eqn:Hv; cbn.
  - destruct placeholder as [s |]; [| reflexivity]. cbn.
    destruct (String.eqb s ""); reflexivity.
  - rewrite Hv. reflexivity.
Qed.

Lemma SelectValue_without_matching_item_witness :
  Select.SelectValue
    (Some (Select.provide uncontrolled_select open_select_store))
    [RText "fruit"; RElem (Host "div") ∅ [pear_item]] (Some "Choose") ∅
  = Ok (RElem (Host "span") (spread ∅) [RText "pear"]).
Proof.
  exact (SelectValue_without_matching_item
           (Select.provide uncontrolled_select open_select_store)
           [RText "fruit"; RElem (Host "div") ∅ [pear_item]] (Some "Choose")
           ∅ eq_refl).
Defined.



(** ** The image ring, continued *)

Section Ring_more.
Import Ring.
Context {num : Type} `{Number num}.

Lemma views_from_length (p : ThreeDImageRingProps num) (s : State num)
  (positions : list (Position num)) (images : list string) (index : nat)
  (views : list (ImageView num)) :
  views_from p s positions index images = Ok views ->
  length views = length images.
Proof.
  revert index views. induction images as [| image rest IH];
    intros index views; cbn.
  - by intros [= <-].
  - destruct (view p s positions index image) as [v | msg]; cbn; [| done].
    destruct (views_from p s positions (S index) rest) as [vs | msg] eqn:Hvs;
      cbn; [| done].
    intros [= <-]. cbn. f_equal. by apply (IH (S index)).
Qed.

Lemma ring_view_lookup (p : ThreeDImageRingProps num) (s : State num)
  (i : nat) (image : string) :
  images p !! i = Some image ->
  exists views v,
    ThreeDImageRing p s = Ok views
    /\ length views = length (images p)
    /\ views !! i = Some v
    /\ view p s (imagePositions (images p) (imageDistance p)) i image = Ok v.
Proof.
  intros Himage.
  destruct (views_from_lookup p s
              (imagePositions (images p) (imageDistance p)) (images p) 0)
    as (views & Hviews & Hlookup).
  { intros k Hk. rewrite imagePositions_lookup by done. by eexists. }
  destruct (Hlookup i image Himage) as (v & Hv & Hview).
  exists views, v. split; [done |]. split; [| done].
  exact (views_from_length p s _ _ 0 views Hviews).
Qed.

(** X19. ThreeDImageRing renders for every list of images, the empty one
    included: it never reads a position that is not there.  It renders one
    element per image, in order: element i has key i, shows image i with the
    alt text "Ring image" and the number i + 1, and starts its animation
    after i * staggerDelay. *)
Theorem ring_renders_every_image (p : ThreeDImageRingProps num)
  (s : State num) :
  exists views,
    ThreeDImageRing p s = Ok views
    /\ length views = length (images p)
    /\ forall i image,
         images p !! i = Some image ->
         exists v,
           views !! i = Some v
           /\ key v = i
           /\ img_src v = image
           /\ img_alt v = "Ring image " +:+ pretty (i + 1)%nat
           /\ transition_delay v = mul (of_nat i) (staggerDelay p).
Proof.
  destruct (views_from_lookup p s
              (imagePositions (images p) (imageDistance p)) (images p) 0)
    as (views & Hviews & Hlookup).
  { intros k Hk. rewrite imagePositions_lookup by done. by eexists. }
  exists views. split; [done |]. split.
  { exact (views_from_length p s _ _ 0 views Hviews). }
  intros i image Himage.
  destruct (Hlookup i image Himage) as (v & Hv & Hview).
  exists v. split; [done |].
  cbn in Hview. unfold view in Hview.
  rewrite imagePositions_lookup in Hview
    by (apply lookup_lt_is_Some; by eexists).
  by injection Hview as <-.
Qed.

(** X20. While image h is hovered, the element of image h animates to full
    opacity and that of every other image to hoverOpacity; after the hover
    has ended every element animates to full opacity. *)
Theorem ring_dims_the_other_images (p : ThreeDImageRingProps num)
  (s : State num) (h i : nat) :
  i < length (images p) ->
  (exists views v,
      ThreeDImageRing p (onHoverStart h s) = Ok views
      /\ views !! i = Some v
      /\ animate_opacity v = if decide (i = h) then one else hoverOpacity p)
  /\ (exists views v,
         ThreeDImageRing p (onHoverEnd (onHoverStart h s)) = Ok views
         /\ views !! i = Some v
         /\ animate_opacity v = one).
Proof.
  intros Hi.
  destruct (lookup_lt_is_Some_2 (images p) i Hi) as [image Himage].
  split.
  - destruct (ring_view_lookup p (onHoverStart h s) i image Himage)
      as (views & v & Hviews & _ & Hv & Hview).
    exists views, v. split; [done |]. split; [done |].
    unfold view in Hview. rewrite imagePositions_lookup in Hview by done.
    injection Hview as <-. cbn.
    destruct (decide (i = h)) as [-> | Hne].
    + by rewrite bool_decide_eq_false_2 by auto.
    + by rewrite bool_decide_eq_true_2 by auto.
  - destruct (ring_view_lookup p (onHoverEnd (onHoverStart h s)) i image
                Himage) as (views & v & Hviews & _ & Hv & Hview).
    exists views, v. split; [done |]. split; [done |].
    unfold view in Hview. rewrite imagePositions_lookup in Hview by done.
    by injection Hview as <-.
Qed.

Lemma views_from_hovered (p : ThreeDImageRingProps num) (s s' : State num)
  (positions : list (Position num)) (images : list string) (index : nat) :
  hoveredIndex s = hoveredIndex s' ->
  views_from p s positions index images
  = views_from p s' positions index images.
Proof.
  intros Hh. revert index. induction images as [| image rest IH];
    intros index; [done |].
  cbn. unfold view. rewrite Hh, (IH (S index)). done.
Qed.

(** X21. Dragging does not change what is rendered for the images: the
    drag turns the ring as a whole, through the two rotation values, and the
    elements of the images depend on the hovered index only. *)
Theorem drag_keeps_the_images (p : ThreeDImageRingProps num)
  (delta : Delta num) (s : State num) :
  ThreeDImageRing p (handleDrag p delta s) = ThreeDImageRing p s.
Proof.
  unfold ThreeDImageRing. apply views_from_hovered.
  unfold handleDrag. by destruct (negb _).
Qed.

End Ring_more.

Lemma ring_dims_the_other_images_witness :
  (exists views v,
      Ring.ThreeDImageRing ring_of_four (hovering 2) = Ok views
      /\ views !! 1 = Some v
      /\ Ring.animate_opacity v = 0x1.3333333333333p-2%float)
  /\ (exists views v,
         Ring.ThreeDImageRing ring_of_four (Ring.onHoverEnd (hovering 2))
         = Ok views
         /\ views !! 1 = Some v
         /\ Ring.animate_opacity v = 1%float).
Proof.
  exact (ring_dims_the_other_images ring_of_four (Ring.initial ring_of_four)
           2 1 ltac:(cbn; lia)).
Defined.

(** X22. In exact arithmetic the angles of a ring of n images lie within one
    turn and increase with the index: 0 <= angle i < 360 for i < n, and
    angle i < angle j for i < j < n, so no two images share an angle. *)
Theorem exact_angles_within_one_turn (i j n : nat) :
  i < j -> j < n ->
  Qle 0 (@Ring.angle Q Ring.exact i n)
  /\ Qlt (@Ring.angle Q Ring.exact i n) (@Ring.angle Q Ring.exact j n)
  /\ Qlt (@Ring.angle Q Ring.exact j n) (inject_Z 360).
Proof.
  intros Hij Hjn. destruct n as [| m]; [lia |].
  unfold Ring.angle. cbn [Ring.mul Ring.div Ring.of_nat Ring.full_turn
                             Ring.exact].
  unfold Qle, Qlt, Qdiv, Qmult, Qinv, inject_Z. cbn [Qnum Qden].
  rewrite Nat2Z.inj_succ. unfold Z.succ.
  destruct (Z.of_nat m + 1)%Z as [| q | q] eqn:Hq; [lia | | lia].
  cbn [Qnum Qden]. rewrite !Pos2Z.inj_mul. nia.
Qed.

Lemma exact_angles_within_one_turn_witness :
  Qle 0 (@Ring.angle Q Ring.exact 1 4)
  /\ Qlt (@Ring.angle Q Ring.exact 1 4) (@Ring.angle Q Ring.exact 3 4)
  /\ Qlt (@Ring.angle Q Ring.exact 3 4) (inject_Z 360).
Proof.
  apply (exact_angles_within_one_turn 1 3 4); lia.
Defined.



